(** * lite-idp: the expiring store and the session / request-state layer

    A shallow embedding of [store/store.go] (package [store]) and of the
    session helpers of package [authentication], followed by the properties
    the specification states about them.

    Go strings and byte slices are Rocq strings (sequences of 8-bit
    characters); [int] and [int64] are [Z] with the 64-bit wrap-around
    written out where the code does arithmetic; maps of the two storage
    services are stdpp [gmap]s. *)

From Stdlib Require Import ZArith Ascii String DecimalString DecimalPos.
From stdpp Require Import base option strings gmap list.

Local Open Scope string_scope.
Local Open Scope Z_scope.
Local Open Scope list_scope.

(** ** Results of Go calls *)

(** The error values the embedded code can see.  [Errorf] is
    [fmt.Errorf(prefix + "%s", err)]. *)
Inductive error : Type :=
| ErrMarshal            (* json.Marshal refused the value *)
| ErrUnmarshal          (* json.Unmarshal refused the bytes *)
| ErrSyntax             (* strconv.ErrSyntax *)
| ErrRange              (* strconv.ErrRange *)
| ErrBucketNameRequired (* bolt *)
| ErrKeyRequired        (* bolt *)
| ErrKeyTooLarge        (* bolt *)
| ErrValueTooLarge      (* bolt *)
| ErrCommit             (* bolt: the transaction could not be committed *)
| ErrRedis              (* redigo: dial, I/O or error reply *)
| ErrNoCookie           (* http.ErrNoCookie *)
| Errorf (prefix : string) (e : error).

(** A Go function that returns [error] and fills an out-parameter. *)
Inductive result (A : Type) : Type :=
| Ok (a : A)
| Err (e : error).
Arguments Ok {A} a.
Arguments Err {A} e.

(** A call either returns or panics (run-time error). *)
Inductive outcome (A : Type) : Type :=
| Returned (a : A)
| Panicked (msg : string).
Arguments Returned {A} a.
Arguments Panicked {A} msg.

(** ** Package [strings] *)

Module gostrings.

(** [strings.HasPrefix(s, p)]. *)
Fixpoint HasPrefix (s p : string) : bool :=
  match p, s with
  | EmptyString, _ => true
  | String _ _, EmptyString => false
  | String b p', String a s' => if Ascii.eqb a b then HasPrefix s' p' else false
  end.

(** [strings.Contains(s, substr)]. *)
Fixpoint Contains (s substr : string) : bool :=
  HasPrefix s substr ||
  match s with
  | EmptyString => false
  | String _ s' => Contains s' substr
  end.

(** [strings.Split(s, sep)] for a one-byte separator, the only use the code
    makes of it.  The result always has at least one element. *)
Fixpoint Split (s : string) (sep : ascii) : list string :=
  match s with
  | EmptyString => [EmptyString]
  | String a s' =>
      if Ascii.eqb a sep then EmptyString :: Split s' sep
      else match Split s' sep with
           | [] => [String a EmptyString]
           | x :: xs => String a x :: xs
           end
  end.

End gostrings.

(** ** Integers of 64 bits *)

Definition wrap64 (z : Z) : Z := (z + 2 ^ 63) mod 2 ^ 64 - 2 ^ 63.

(** ** Package [strconv] *)

Module strconv.

Definition isDigit (a : ascii) : bool :=
  (48 <=? Z.of_N (N_of_ascii a)) && (Z.of_N (N_of_ascii a) <=? 57).

Definition digitVal (a : ascii) : Z := Z.of_N (N_of_ascii a) - 48.

(** The digits of a non-empty all-digit string, read in base 10. *)
Fixpoint parseDigits (s : string) (acc : Z) : option Z :=
  match s with
  | EmptyString => Some acc
  | String a s' =>
      if isDigit a then parseDigits s' (acc * 10 + digitVal a) else None
  end.

(** [strconv.ParseInt(s, 10, 64)]: the value and the error. *)
Definition ParseInt (s : string) : Z * option error :=
  match s with
  | EmptyString => (0, Some ErrSyntax)
  | String a s' =>
      let neg := Ascii.eqb a "-" in
      let body := if Ascii.eqb a "+" || neg then s' else s in
      match body with
      | EmptyString => (0, Some ErrSyntax)
      | _ =>
          match parseDigits body 0 with
          | None => (0, Some ErrSyntax)
          | Some un =>
              if negb neg && (2 ^ 63 <=? un) then (2 ^ 63 - 1, Some ErrRange)
              else if neg && (2 ^ 63 <? un) then (- 2 ^ 63, Some ErrRange)
              else (if neg then - un else un, None)
          end
      end
  end.

(** [strconv.FormatInt(i, 10)]. *)
Definition FormatInt (i : Z) : string := NilZero.string_of_int (Z.to_int i).

End strconv.

(** ** Package [time] *)

Module time.

(** A [time.Time]: seconds since January 1, year 1, and nanoseconds. *)
Record Time : Type := mkTime { sec : Z; nsec : Z }.

Definition unixToInternal : Z := 62135596800.

(** [time.Unix(s, 0)]. *)
Definition Unix (s : Z) : Time :=
  {| sec := wrap64 (s + unixToInternal); nsec := 0 |}.

(** [t.Unix()]. *)
Definition ToUnix (t : Time) : Z := wrap64 (sec t - unixToInternal).

(** [t.After(u)]. *)
Definition After (t u : Time) : bool :=
  (sec u <? sec t) || ((sec t =? sec u) && (nsec u <? nsec t)).

(** The instant [s] seconds and [ns] nanoseconds after the Unix epoch, as the
    clock reports it. *)
Definition clock (s ns : Z) : Time :=
  {| sec := s + unixToInternal; nsec := ns |}.

(** [t] moved [d] seconds into the future. *)
Definition addSeconds (t : Time) (d : Z) : Time :=
  {| sec := sec t + d; nsec := nsec t |}.

End time.

(** ** Package [net] *)

Module net.

(** A [net.IP] is a byte slice; [nil] is the empty list. *)
Abbreviation IP := (list Z).

Definition big : Z := 16777215. (* 0xFFFFFF *)

(** [dtoi]: decimal to integer.  Returns the number, the rest of the string
    behind the digits consumed, how many were consumed, and success. *)
Fixpoint dtoi_loop (s : string) (n : Z) (i : nat) : Z * string * nat * bool :=
  match s with
  | String a s' =>
      if strconv.isDigit a then
        let n' := n * 10 + strconv.digitVal a in
        if big <=? n' then (big, s, i, false) else dtoi_loop s' n' (S i)
      else (n, s, i, true)
  | EmptyString => (n, s, i, true)
  end.

Definition dtoi (s : string) : Z * string * bool :=
  match dtoi_loop s 0 0 with
  | (_, _, _, false) => (big, s, false)
  | (_, _, O, true) => (0, s, false)
  | (n, rest, S _, true) => (n, rest, true)
  end.

Definition v4InV6Prefix : IP := [0; 0; 0; 0; 0; 0; 0; 0; 0; 0; 255; 255].

(** [net.IPv4(a, b, c, d)]: the 16-byte form. *)
Definition IPv4 (a b c d : Z) : IP := v4InV6Prefix ++ [a; b; c; d].

(** [parseIPv4]: the loop over the four octets; [todo] counts the octets
    still to read, [first] says that none was read yet, [p] holds those
    read. *)
Fixpoint parseIPv4_loop (todo : nat) (first : bool) (s : string) (p : list Z)
  : option (list Z * string) :=
  match todo with
  | O => Some (p, s)
  | S todo' =>
      match s with
      | EmptyString => None (* missing octets *)
      | String a s' =>
          if negb first && negb (Ascii.eqb a ".") then None
          else
            let s1 := if first then s else s' in
            match dtoi s1 with
            | (n, rest, ok) =>
                if negb ok || (255 <? n) then None
                else parseIPv4_loop todo' false rest (p ++ [n mod 256])
            end
      end
  end.

Definition parseIPv4 (s : string) : IP :=
  match parseIPv4_loop 4 true s [] with
  | Some ([a; b; c; d], EmptyString) => IPv4 a b c d
  | _ => []
  end.

(** The first of ['.'] and [':'] in [s], which decides how [ParseIP] reads
    it. *)
Fixpoint firstSeparator (s : string) : option ascii :=
  match s with
  | EmptyString => None
  | String a s' =>
      if Ascii.eqb a "." then Some a
      else if Ascii.eqb a ":" then Some a
      else firstSeparator s'
  end.

(** [ip.Equal(x)]: an IPv4 address and its 16-byte form are equal. *)
Definition Equal (ip x : IP) : bool :=
  if (length ip =? length x)%nat then bool_decide (ip = x)
  else if (length ip =? 4)%nat && (length x =? 16)%nat then
    bool_decide (take 12 x = v4InV6Prefix) && bool_decide (ip = drop 12 x)
  else if (length ip =? 16)%nat && (length x =? 4)%nat then
    bool_decide (take 12 ip = v4InV6Prefix) && bool_decide (drop 12 ip = x)
  else false.

Section Net.
(** [parseIPv6(s, false)] of the Go library, whose text the program never
    reaches (see [getIP_ignores_parseIPv6]). *)
Variable parseIPv6 : string -> IP.

(** [net.ParseIP(s)]. *)
Definition ParseIP (s : string) : IP :=
  match firstSeparator s with
  | None => []
  | Some a => if Ascii.eqb a "." then parseIPv4 s else parseIPv6 s
  end.
End Net.

End net.

(** ** Package [encoding/json] *)

(** [json.Marshal] and [json.Unmarshal] at one Go type: [None] is an error
    return.  The byte format itself is outside this development. *)
Class Codec (V : Type) : Type := {
  marshal : V -> option string;
  unmarshal : string -> option V
}.

(** ** Package [net/http] *)

Module http.

Record Cookie : Type := {
  Name : string; Value : string; Path : string;
  HttpOnly : bool; Secure : bool
}.

Record Request : Type := {
  RemoteAddr : string;
  Cookies : list Cookie   (* the cookies of the Cookie header, in order *)
}.

(** [request.Cookie(name)]: the first cookie of that name. *)
Fixpoint Request_Cookie_in (cs : list Cookie) (name : string) : result Cookie :=
  match cs with
  | [] => Err ErrNoCookie
  | c :: cs' => if String.eqb (Name c) name then Ok c else Request_Cookie_in cs' name
  end.

Definition Request_Cookie (request : Request) (name : string) : result Cookie :=
  Request_Cookie_in (Cookies request) name.

(** An [http.ResponseWriter], as far as this layer uses it: the cookies of
    the Set-Cookie headers added so far. *)
Abbreviation ResponseWriter := (list Cookie).

(** [http.SetCookie(w, c)], for a cookie whose name and value need no
    sanitizing, as the two names and the identifiers of [uuid] do not. *)
Definition SetCookie (w : ResponseWriter) (c : Cookie) : ResponseWriter := w ++ [c].

End http.

(** ** Package [log] *)

Inductive logLine : Type :=
| LogText (s : string)
| LogError (e : error).

(** ** Package [bolt]: the embedded key/value file *)

Module bolt.

(** The root of a database file: bucket name to bucket, a bucket being a
    map from keys to values.  A transaction works on its own copy. *)
Abbreviation Tx := (gmap string (gmap string string)).

Definition MaxKeySize : Z := 32768.
Definition MaxValueSize : Z := 2 ^ 31 - 2.

(** A [*bolt.Bucket] is the name of a bucket of the transaction, or
    [None] for the nil pointer. *)
Abbreviation Handle := (option string).

(** [tx.CreateBucketIfNotExists(name)]. *)
Definition CreateBucketIfNotExists (name : string) (tx : Tx) : Tx * result string :=
  if String.eqb name "" then (tx, Err ErrBucketNameRequired)
  else match tx !! name with
       | Some _ => (tx, Ok name)
       | None => (<[name := ∅]> tx, Ok name)
       end.

(** [tx.Bucket(name)]: nil when there is no such bucket. *)
Definition GetBucket (name : string) (tx : Tx) : Handle :=
  match tx !! name with
  | Some _ => Some name
  | None => None
  end.

(** [b.Put(key, value)]. *)
Definition Put (b : string) (key value : string) (tx : Tx) : Tx * option error :=
  if (String.length key =? 0)%nat then (tx, Some ErrKeyRequired)
  else if MaxKeySize <? Z.of_nat (String.length key) then (tx, Some ErrKeyTooLarge)
  else if MaxValueSize <? Z.of_nat (String.length value) then (tx, Some ErrValueTooLarge)
  else (<[b := <[key := value]> (default ∅ (tx !! b))]> tx, None).

(** [b.Get(key)]: nil (here the empty string) when the key is absent; a
    nil receiver is dereferenced, which panics. *)
Definition Get (b : Handle) (key : string) (tx : Tx) : outcome string :=
  match b with
  | None => Panicked "invalid memory address or nil pointer dereference"
  | Some name => Returned (default "" (default ∅ (tx !! name) !! key))
  end.

(** An open database: its committed contents, and for the coming
    read-write transactions whether the commit reaches the disk (an empty
    list: every commit does). *)
Record DB : Type := mkDB { root : Tx; commits : list bool }.

(** [db.Update(fn)]: [fn] runs in a read-write transaction, which is
    rolled back when [fn] returns an error and committed otherwise. *)
Definition Update (fn : Tx -> Tx * option error) (db : DB) : DB * option error :=
  match fn (root db) with
  | (_, Some e) => (db, Some e)
  | (tx, None) =>
      if hd true (commits db)
      then ({| root := tx; commits := tl (commits db) |}, None)
      else ({| root := root db; commits := tl (commits db) |}, Some ErrCommit)
  end.

(** [db.View(fn)]: [fn] runs in a read-only transaction; what it assigns
    to the variables it captured comes back with its error.  A panic in
    [fn] passes through. *)
Definition View {A} (fn : Tx -> outcome (A * option error)) (db : DB)
  : outcome (A * option error) :=
  fn (root db).

End bolt.

(** ** Package [redis]: the remote cache, seen through a pooled connection *)

Module redis.

Inductive command : Type :=
| SETEX (key : string) (seconds : Z) (data : string)
| GET (key : string).

Inductive reply : Type :=
| Nil
| Bulk (b : string)       (* []byte *)
| Status (s : string).    (* string *)

(** The service behind the pool: whether a connection can be got, and the
    keys with their values and expiry instants. *)
Record Pool : Type := mkPool { up : bool; keys : gmap string (string * time.Time) }.

(** [conn.Do(cmd, args...)] at the instant [now] of the service.  A key is
    expired once the clock has passed its expiry instant, and an expired
    key is removed when it is touched. *)
Definition Do (now : time.Time) (c : command) (p : Pool) : Pool * (reply * option error) :=
  if negb (up p) then (p, (Nil, Some ErrRedis))
  else
    match c with
    | SETEX key seconds data =>
        if seconds <=? 0 then (p, (Nil, Some ErrRedis))
        else ({| up := up p; keys := <[key := (data, time.addSeconds now seconds)]> (keys p) |},
              (Status "OK", None))
    | GET key =>
        match keys p !! key with
        | None => (p, (Nil, None))
        | Some (data, expiry) =>
            if time.After now expiry
            then ({| up := up p; keys := delete key (keys p) |}, (Nil, None))
            else (p, (Bulk data, None))
        end
    end.

End redis.

(** ** Package [store] *)

Module store.

(** The [Storer] interface.  [Store] returns the new state of the backend
    and the error; [Retrieve] returns the state of the backend and either
    panics or returns the error or the value read into its out-parameter.
    [now] is the reading of the clock during the call. *)
Class Storer (S : Type) : Type := {
  Store : forall {V} `{Codec V}, time.Time -> string -> V -> Z -> S -> S * option error;
  Retrieve : forall {V} `{Codec V}, time.Time -> string -> S -> S * outcome (result V)
}.

(** [json.Unmarshal(data, value)] as the last statement of a [Retrieve]. *)
Definition Unmarshal {V} `{Codec V} (data : string) : result V :=
  match unmarshal data with
  | Some v => Ok v
  | None => Err ErrUnmarshal
  end.

(** *** The networked backend: [type storer struct { pool *redis.Pool }] *)

Record storer : Type := mkStorer { pool : redis.Pool }.

Definition storer_Store {V} `{Codec V}
  (now : time.Time) (key : string) (value : V) (time : Z) (s : storer)
  : storer * option error :=
  match marshal value with
  | None => (s, Some ErrMarshal)
  | Some data =>
      (* the reply and the error of Do are dropped *)
      let '(p, _) := redis.Do now (redis.SETEX key time data) (pool s) in
      ({| pool := p |}, None)
  end.

Definition storer_Retrieve {V} `{Codec V}
  (now : time.Time) (key : string) (s : storer) : storer * outcome (result V) :=
  let '(p, (data, err)) := redis.Do now (redis.GET key) (pool s) in
  let s' := {| pool := p |} in
  match err with
  | Some e => (s', Returned (Err e))
  | None =>
      (* data.([]byte) *)
      match data with
      | redis.Bulk b => (s', Returned (Unmarshal b))
      | redis.Nil =>
          (s', Panicked "interface conversion: interface is nil, not []uint8")
      | redis.Status _ =>
          (s', Panicked "interface conversion: interface is string, not []uint8")
      end
  end.

#[global] Instance storer_Storer : Storer storer :=
  {| Store := @storer_Store; Retrieve := @storer_Retrieve |}.

(** *** The local backend: [type embedDB struct { db *bolt.DB }] *)

Record embedDB : Type := mkEmbedDB { db : bolt.DB }.

Definition embedDB_Store {V} `{Codec V}
  (now : time.Time) (key : string) (value : V) (ttd : Z) (s : embedDB)
  : embedDB * option error :=
  let myDB := db s in
  (* update the "data" bucket *)
  let '(myDB, err) :=
    bolt.Update (fun tx =>
      match bolt.CreateBucketIfNotExists "data" tx with
      | (tx, Err e) => (tx, Some (Errorf "create bucket: " e))
      | (tx, Ok dataBucket) =>
          match marshal value with
          | None => (tx, Some ErrMarshal)
          | Some data => bolt.Put dataBucket key data tx
          end
      end) myDB in
  (* update the "expTimes" bucket; err is assigned again *)
  let '(myDB, err) :=
    bolt.Update (fun tx =>
      match bolt.CreateBucketIfNotExists "expTimes" tx with
      | (tx, Err e) => (tx, Some (Errorf "create bucket: " e))
      | (tx, Ok expTimes) =>
          (* current time in seconds from the epoch plus the seconds for
             expiration *)
          let expTime := wrap64 (time.ToUnix now + wrap64 ttd) in
          let timeStr := strconv.FormatInt expTime in
          bolt.Put expTimes key timeStr tx
      end) myDB in
  match err with
  | Some e => ({| db := myDB |}, Some (Errorf "updating database: " e))
  | None => ({| db := myDB |}, None)
  end.

Definition embedDB_Retrieve {V} `{Codec V}
  (now : time.Time) (key : string) (s : embedDB) : embedDB * outcome (result V) :=
  let myDB := db s in
  let viewed :=
    bolt.View (fun tx =>
      let data := bolt.GetBucket "data" tx in
      let times := bolt.GetBucket "times" tx in
      match bolt.Get times key tx with
      | Panicked msg => Panicked msg
      | Returned expTime =>
          let '(timeStr, err) := strconv.ParseInt expTime in
          let expSec := time.Unix timeStr in
          if time.After now expSec then
            match bolt.Get data key tx with
            | Panicked msg => Panicked msg
            | Returned myData => Returned (myData, err)
            end
          else Returned ("", err)
      end) myDB in
  match viewed with
  | Panicked msg => (s, Panicked msg)
  | Returned (_, Some e) => (s, Returned (Err e))
  | Returned (myData, None) => (s, Returned (Unmarshal myData))
  end.

#[global] Instance embedDB_Storer : Storer embedDB :=
  {| Store := @embedDB_Store; Retrieve := @embedDB_Retrieve |}.

(** *** [New(address)] *)

(** The value of interface type [Storer] that [New] returns. *)
Inductive AnyStorer : Type :=
| Local (s : embedDB)
| Networked (s : storer).

(** [New(address)]: [file] is the database [bolt.Open] finds at "my.db"
    (when it cannot be opened the program exits), [service] the cache at
    [address]. *)
Definition New (address : string) (file : bolt.DB) (service : redis.Pool) : AnyStorer :=
  if String.eqb address "" then Local {| db := file |}
  else Networked {| pool := service |}.

#[global] Instance AnyStorer_Storer : Storer AnyStorer :=
  {| Store := fun V _ now key value time s =>
       match s with
       | Local d => let '(d', e) := embedDB_Store now key value time d in (Local d', e)
       | Networked r => let '(r', e) := storer_Store now key value time r in (Networked r', e)
       end;
     Retrieve := fun V _ now key s =>
       match s with
       | Local d => let '(d', o) := embedDB_Retrieve now key d in (Local d', o)
       | Networked r => let '(r', o) := storer_Retrieve now key r in (Networked r', o)
       end |}.

End store.

(** ** Package [authentication] *)

Module authentication.

(** [protocol.AuthenticatedUser]: this layer reads [Name] and [IP]; the other
    attributes of the protocol layer are [Attributes]. *)
Record AuthenticatedUser (Attrs : Type) : Type := {
  Name : string;
  IP : net.IP;
  Attributes : Attrs
}.
Arguments Name {Attrs} _.
Arguments IP {Attrs} _.
Arguments Attributes {Attrs} _.

(** [type RequestState struct]; a nil [*protocol.AuthnRequest] is [None]. *)
Record RequestState (Req : Type) : Type := {
  AuthnRequest : option Req;
  RelayState : string
}.
Arguments AuthnRequest {Req} _.
Arguments RelayState {Req} _.

Section Session.
Variable parseIPv6 : string -> net.IP.
Context {Attrs Req : Type}.
Context {userCodec : Codec (AuthenticatedUser Attrs)}.
Context {stateCodec : Codec (RequestState Req)}.
Context {S : Type} {storer : store.Storer S}.

Definition getIP (request : http.Request) : net.IP :=
  let addr := http.RemoteAddr request in
  let addr :=
    if gostrings.Contains addr ":"
    then hd "" (gostrings.Split addr ":")
    else addr in
  net.ParseIP parseIPv6 addr.

(** The value returned, with the state of the store and the log after the
    call. *)
Definition retrieveUserFromSession
  (now : time.Time) (request : http.Request) (st : S) (lg : list logLine)
  : S * list logLine * outcome (option (AuthenticatedUser Attrs)) :=
  (* Does this user have a session? *)
  match http.Request_Cookie request "lidp-user" with
  | Err _ => (st, lg, Returned None)
  | Ok cookie =>
      (* Read the user information from datastore *)
      match store.Retrieve (V := AuthenticatedUser Attrs) now (http.Value cookie) st with
      | (st, Panicked msg) => (st, lg, Panicked msg)
      | (st, Returned (Err _)) => (st, lg, Returned None)
      | (st, Returned (Ok user)) =>
          let lg := lg ++ [LogText ("Using exising session for " +:+ Name user)] in
          (* Make sure the IP matches *)
          if negb (net.Equal (getIP request) (IP user)) then
            (st,
             lg ++ [LogText "Warning - Existing session associated with a different IP address."],
             (* Force them to authenticate again *)
             Returned None)
          else (st, lg, Returned (Some user))
      end
  end.

(** [sessionID] is the identifier [uuid.NewV4().String()] draws; [user] is
    the record the non-nil pointer refers to. *)
Definition storeUserInSession
  (now : time.Time) (sessionID : string)
  (writer : http.ResponseWriter) (st : S) (user : AuthenticatedUser Attrs)
  (lg : list logLine)
  : http.ResponseWriter * S * list logLine :=
  (* Set a cookie for the user session *)
  let c := {| http.Name := "lidp-user"; http.Value := sessionID; http.Path := "/";
              http.HttpOnly := true; http.Secure := true |} in
  let writer := http.SetCookie writer c in
  let lg := lg ++ [LogText ("Creating a new session for " +:+ Name user)] in
  (* Save information for 8 hours *)
  match store.Store now sessionID user 28800 st with
  | (st, Some _) => (writer, st, lg ++ [LogText "Failed to save session for user."])
  | (st, None) => (writer, st, lg)
  end.

Definition storeRequestState
  (now : time.Time) (sessionID : string)
  (writer : http.ResponseWriter) (st : S)
  (authnRequest : option Req) (relayState : string)
  : http.ResponseWriter * S * option error :=
  (* Save the request and relaystate for 5 minutes *)
  let state := {| AuthnRequest := authnRequest; RelayState := relayState |} in
  match store.Store now sessionID state 300 st with
  | (st, Some err) => (writer, st, Some err)
  | (st, None) =>
      (* Set a cookie for the request state *)
      let c := {| http.Name := "lidp-rs"; http.Value := sessionID; http.Path := "/";
                  http.HttpOnly := true; http.Secure := true |} in
      (http.SetCookie writer c, st, None)
  end.

Definition retrieveRequestState
  (now : time.Time) (request : http.Request) (st : S) (lg : list logLine)
  : S * list logLine * outcome (option Req * string) :=
  (* Does this user have a saved request state *)
  match http.Request_Cookie request "lidp-rs" with
  | Err _ => (st, lg, Returned (None, ""))
  | Ok cookie =>
      (* Read the user information from data store *)
      match store.Retrieve (V := RequestState Req) now (http.Value cookie) st with
      | (st, Panicked msg) => (st, lg, Panicked msg)
      | (st, Returned (Err err)) => (st, lg ++ [LogError err], Returned (None, ""))
      | (st, Returned (Ok rs)) => (st, lg, Returned (AuthnRequest rs, RelayState rs))
      end
  end.

End Session.

End authentication.

(** ** Values and codecs to run the model on

    The theorems below hold for every codec; these are the ones the closed
    examples are evaluated with.  Their wire format is a length-prefixed
    text, which stands for the JSON text of the program. *)

Module fixture.

(** A Go [float64] holding an integer, or not a number.  [json.Marshal]
    writes the first in decimal and returns an error for the second. *)
Inductive number : Type :=
| Int (z : Z)
| NaN.

#[global] Instance numberCodec : Codec number := {|
  marshal n := match n with Int z => Some (strconv.FormatInt z) | NaN => None end;
  unmarshal s :=
    match strconv.ParseInt s with
    | (z, None) => Some (Int z)
    | (_, Some _) => None
    end
|}.

(** A string of at most 255 bytes behind its length. *)
Definition put (s rest : string) : option string :=
  if (String.length s <? 256)%nat
  then Some (String (ascii_of_nat (String.length s)) (s +:+ rest))
  else None.

Definition get (s : string) : option (string * string) :=
  match s with
  | EmptyString => None
  | String n rest =>
      let k := nat_of_ascii n in
      if (k <=? String.length rest)%nat
      then Some (substring 0 k rest, substring k (String.length rest - k) rest)
      else None
  end.

Definition bytesToString (l : list Z) : string :=
  string_of_list_ascii (map (fun z => ascii_of_N (Z.to_N z)) l).

Definition stringToBytes (s : string) : list Z :=
  map (fun a => Z.of_N (N_of_ascii a)) (list_ascii_of_string s).

#[global] Instance userCodec : Codec (authentication.AuthenticatedUser unit) := {|
  marshal u := put (bytesToString (authentication.IP u)) (authentication.Name u);
  unmarshal s :=
    match get s with
    | Some (ip, name) =>
        Some {| authentication.Name := name;
                authentication.IP := stringToBytes ip;
                authentication.Attributes := tt |}
    | None => None
    end
|}.

(** The pending request of the protocol layer is its identifier here. *)
#[global] Instance stateCodec : Codec (authentication.RequestState string) := {|
  marshal st :=
    match authentication.AuthnRequest st with
    | None => Some (String "N" (authentication.RelayState st))
    | Some r =>
        match put r (authentication.RelayState st) with
        | Some body => Some (String "S" body)
        | None => None
        end
    end;
  unmarshal s :=
    match s with
    | String "N" relay =>
        Some {| authentication.AuthnRequest := None; authentication.RelayState := relay |}
    | String "S" body =>
        match get body with
        | Some (r, relay) =>
            Some {| authentication.AuthnRequest := Some r;
                    authentication.RelayState := relay |}
        | None => None
        end
    | _ => None
    end
|}.

Definition alice : authentication.AuthenticatedUser unit :=
  {| authentication.Name := "alice";
     authentication.IP := net.parseIPv4 "10.0.0.5";
     authentication.Attributes := tt |}.

(** A client on the IPv6 loopback address [::1]. *)
Definition carol : authentication.AuthenticatedUser unit :=
  {| authentication.Name := "carol";
     authentication.IP := [0; 0; 0; 0; 0; 0; 0; 0; 0; 0; 0; 0; 0; 0; 0; 1];
     authentication.Attributes := tt |}.

(** A reading of [parseIPv6] that knows the loopback address. *)
Definition parseIPv6 (s : string) : net.IP :=
  if String.eqb s "::1" then authentication.IP carol else [].

(** A database file that was just created, and one on a disk where the
    listed commits fail. *)
Definition freshFile : store.embedDB :=
  {| store.db := {| bolt.root := ∅; bolt.commits := [] |} |}.

Definition fileOnDisk (commits : list bool) : store.embedDB :=
  {| store.db := {| bolt.root := ∅; bolt.commits := commits |} |}.

(** A cache service without keys, reachable or not. *)
Definition cache (up : bool) : store.storer :=
  {| store.pool := {| redis.up := up; redis.keys := ∅ |} |}.

Definition noon : time.Time := time.clock 1500000000 0.

Definition session_cookie (id : string) : http.Cookie :=
  {| http.Name := "lidp-user"; http.Value := id; http.Path := "/";
     http.HttpOnly := true; http.Secure := true |}.

Definition state_cookie (id : string) : http.Cookie :=
  {| http.Name := "lidp-rs"; http.Value := id; http.Path := "/";
     http.HttpOnly := true; http.Secure := true |}.

End fixture.

(** ** The two regions of the local backend, and atomicity as specified *)

(** The payload record and the expiry record of [key] in a database file. *)
Definition payload (s : store.embedDB) (key : string) : option string :=
  default ∅ (bolt.root (store.db s) !! "data") !! key.

Definition expiry (s : store.embedDB) (key : string) : option string :=
  default ∅ (bolt.root (store.db s) !! "expTimes") !! key.

(** The expiry record [Store] writes at [now] for a life of [ttd] seconds. *)
Definition expiryRecord (now : time.Time) (ttd : Z) : string :=
  strconv.FormatInt (wrap64 (time.ToUnix now + wrap64 ttd)).

(** The specification's reading of a write, in its words: both records are
    written and the call succeeds, or neither is and the failure is reported
    to the caller. *)
Definition Store_atomic {V} `{Codec V}
  (now : time.Time) (key : string) (value : V) (ttd : Z) (s : store.embedDB) : Prop :=
  let r := store.embedDB_Store now key value ttd s in
  (snd r = None
   /\ (exists data, marshal value = Some data /\ payload (fst r) key = Some data)
   /\ expiry (fst r) key = Some (expiryRecord now ttd))
  \/ (snd r <> None
      /\ payload (fst r) key = payload s key
      /\ expiry (fst r) key = expiry s key).

(** ** What a stored request state decodes to *)


(** ** The files the program writes *)

(** The states of the local backend that the program reaches from a file
    that [bolt.Open] has just created. *)
Inductive written : store.embedDB -> Prop :=
| written_fresh (commits : list bool) :
    written {| store.db := {| bolt.root := ∅; bolt.commits := commits |} |}
| written_Store {V} `{Codec V} (now : time.Time) (key : string) (value : V) (ttd : Z)
    (s : store.embedDB) :
    written s -> written (fst (store.embedDB_Store now key value ttd s))
| written_Retrieve {V} `{Codec V} (now : time.Time) (key : string) (s : store.embedDB) :
    written s -> written (fst (store.embedDB_Retrieve (V := V) now key s)).

(** ** Decimal text *)

(** The number a run of decimal digits stands for, behind the digits read so
    far ([acc]). *)
Fixpoint decimalValue (d : Decimal.uint) (acc : Z) : Z :=
  match d with
  | Decimal.Nil => acc
  | Decimal.D0 d => decimalValue d (acc * 10 + 0)
  | Decimal.D1 d => decimalValue d (acc * 10 + 1)
  | Decimal.D2 d => decimalValue d (acc * 10 + 2)
  | Decimal.D3 d => decimalValue d (acc * 10 + 3)
  | Decimal.D4 d => decimalValue d (acc * 10 + 4)
  | Decimal.D5 d => decimalValue d (acc * 10 + 5)
  | Decimal.D6 d => decimalValue d (acc * 10 + 6)
  | Decimal.D7 d => decimalValue d (acc * 10 + 7)
  | Decimal.D8 d => decimalValue d (acc * 10 + 8)
  | Decimal.D9 d => decimalValue d (acc * 10 + 9)
  end.

(** * Properties *)

(** ** The library models *)

Lemma Split_nonempty (s : string) (sep : ascii) : gostrings.Split s sep <> [].
Proof.
  destruct s as [|a s]; simpl; [discriminate|].
  destruct (Ascii.eqb a sep); [discriminate|].
  destruct (gostrings.Split s sep); discriminate.
Qed.

(** Behind a split at [':'] the first piece holds no [':']. *)
Lemma firstSeparator_Split_hd (s : string) :
  net.firstSeparator (hd "" (gostrings.Split s ":")) <> Some ":"%char.
Proof.
  induction s as [|a s IH]; simpl; [discriminate|].
  destruct (Ascii.eqb a ":") eqn:Ea; simpl; [discriminate|].
  destruct (gostrings.Split s ":") as [|x xs] eqn:Es; simpl in *.
  - rewrite Ea. destruct (Ascii.eqb a "."); [|discriminate].
    intros [=->]. discriminate.
  - rewrite Ea. destruct (Ascii.eqb a "."); [|exact IH].
    intros [=->]. discriminate.
Qed.

Lemma firstSeparator_cases (s : string) (a : ascii) :
  net.firstSeparator s = Some a -> a = "."%char \/ a = ":"%char.
Proof.
  induction s as [|b s IH]; simpl; [discriminate|].
  destruct (Ascii.eqb_spec b "."); [intros [=<-]; auto|].
  destruct (Ascii.eqb_spec b ":"); [intros [=<-]; auto|].
  exact IH.
Qed.

Lemma Contains_colon_firstSeparator (s : string) :
  gostrings.Contains s ":" = false -> net.firstSeparator s <> Some ":"%char.
Proof.
  induction s as [|a s IH]; simpl; [discriminate|].
  destruct (Ascii.eqb_spec a ":") as [->|Hne]; simpl.
  - destruct s; discriminate.
  - intros Hc. destruct (Ascii.eqb_spec a "."); [intros [=->]; done|].
    apply IH. exact Hc.
Qed.

(** ** [bolt]: what a transaction leaves alone *)

Lemma CreateBucketIfNotExists_other (name other : string) (tx : bolt.Tx) :
  name <> other ->
  fst (bolt.CreateBucketIfNotExists name tx) !! other = tx !! other.
Proof.
  intros Hne. unfold bolt.CreateBucketIfNotExists.
  destruct (String.eqb name ""); [done|].
  destruct (tx !! name); simpl; [done|].
  by rewrite lookup_insert_ne.
Qed.

Lemma CreateBucketIfNotExists_handle (name : string) (tx : bolt.Tx) (b : string) :
  snd (bolt.CreateBucketIfNotExists name tx) = Ok b -> b = name.
Proof.
  unfold bolt.CreateBucketIfNotExists.
  destruct (String.eqb name ""); [discriminate|].
  destruct (tx !! name); simpl; congruence.
Qed.

Lemma Put_other (b key value other : string) (tx : bolt.Tx) :
  b <> other -> fst (bolt.Put b key value tx) !! other = tx !! other.
Proof.
  intros Hne. unfold bolt.Put.
  repeat match goal with |- context [if ?c then _ else _] => destruct c end;
    simpl; try done.
  by rewrite lookup_insert_ne.
Qed.

Lemma Update_other (fn : bolt.Tx -> bolt.Tx * option error) (d : bolt.DB) (other : string) :
  (forall tx, fst (fn tx) !! other = tx !! other) ->
  bolt.root (fst (bolt.Update fn d)) !! other = bolt.root d !! other.
Proof.
  intros Hfn. unfold bolt.Update.
  specialize (Hfn (bolt.root d)).
  destruct (fn (bolt.root d)) as [tx [e|]]; simpl in *; [done|].
  destruct (hd true (bolt.commits d)); simpl; done.
Qed.

(** [Store] of the local backend touches the buckets "data" and "expTimes"
    and no other. *)
Lemma embedDB_Store_other {V} `{Codec V}
  (now : time.Time) (key : string) (value : V) (ttd : Z) (s : store.embedDB)
  (other : string) :
  other <> "data" -> other <> "expTimes" ->
  bolt.root (store.db (fst (store.embedDB_Store now key value ttd s))) !! other
  = bolt.root (store.db s) !! other.
Proof.
  intros Hd He. unfold store.embedDB_Store.
  match goal with
  | |- context [bolt.Update ?f (store.db s)] =>
      pose proof (Update_other f (store.db s) other) as H1;
      destruct (bolt.Update f (store.db s)) as [d1 e1]
  end.
  match goal with
  | |- context [bolt.Update ?f d1] =>
      pose proof (Update_other f d1 other) as H2;
      destruct (bolt.Update f d1) as [d2 e2]
  end.
  simpl in H1, H2.
  assert (bolt.root d2 !! other = bolt.root (store.db s) !! other) as Hgoal.
  { rewrite H2, H1; [done| |].
    - intros tx.
      pose proof (CreateBucketIfNotExists_other "data" other tx) as Hc.
      pose proof (CreateBucketIfNotExists_handle "data" tx) as Hh.
      destruct (bolt.CreateBucketIfNotExists "data" tx) as [tx' [b|e]]; simpl in *;
        [|by apply Hc].
      rewrite (Hh b eq_refl).
      destruct (marshal value); simpl; [|by apply Hc].
      rewrite Put_other by done. by apply Hc.
    - intros tx.
      pose proof (CreateBucketIfNotExists_other "expTimes" other tx) as Hc.
      pose proof (CreateBucketIfNotExists_handle "expTimes" tx) as Hh.
      destruct (bolt.CreateBucketIfNotExists "expTimes" tx) as [tx' [b|e]]; simpl in *;
        [|by apply Hc].
      rewrite (Hh b eq_refl).
      rewrite Put_other by done. by apply Hc. }
  destruct e2; simpl; exact Hgoal.
Qed.

(** [Retrieve] of the local backend on a file without a bucket "times". *)
Lemma embedDB_Retrieve_no_times {V} `{Codec V}
  (now : time.Time) (key : string) (s : store.embedDB) :
  bolt.root (store.db s) !! "times" = None ->
  store.embedDB_Retrieve (V := V) now key s
  = (s, Panicked "invalid memory address or nil pointer dereference").
Proof.
  intros Hn. unfold store.embedDB_Retrieve, bolt.View, bolt.GetBucket.
  rewrite Hn. reflexivity.
Qed.

Lemma embedDB_Retrieve_fst {V} `{Codec V}
  (now : time.Time) (key : string) (s : store.embedDB) :
  fst (store.embedDB_Retrieve (V := V) now key s) = s.
Proof.
  unfold store.embedDB_Retrieve.
  destruct (bolt.View _ (store.db s)) as [[myData [e|]]|msg]; reflexivity.
Qed.

(** No file the program writes has a bucket "times". *)
Lemma written_no_times (s : store.embedDB) :
  written s -> bolt.root (store.db s) !! "times" = None.
Proof.
  induction 1 as [commits | V HV now key value ttd s Hw IH | V HV now key s Hw IH].
  - reflexivity.
  - rewrite embedDB_Store_other; done.
  - by rewrite embedDB_Retrieve_fst.
Qed.

(** Hence every [Retrieve] on such a file panics. *)
Lemma written_Retrieve_panics {V} `{Codec V}
  (now : time.Time) (key : string) (s : store.embedDB) :
  written s ->
  snd (store.embedDB_Retrieve (V := V) now key s)
  = Panicked "invalid memory address or nil pointer dereference".
Proof.
  intros Hw. rewrite embedDB_Retrieve_no_times; [reflexivity|].
  by apply written_no_times.
Qed.

(** With a bucket "times" in the file (the program creates none), [Retrieve]
    hands out the payload once the clock has passed the instant found there,
    and decodes the empty slice before. *)
Lemma embedDB_Retrieve_times {V} `{Codec V}
  (now : time.Time) (key : string) (s : store.embedDB)
  (tb d : gmap string string) (str : string) (e : Z) :
  bolt.root (store.db s) !! "times" = Some tb ->
  bolt.root (store.db s) !! "data" = Some d ->
  tb !! key = Some str ->
  strconv.ParseInt str = (e, None) ->
  store.embedDB_Retrieve (V := V) now key s
  = (s, Returned (if time.After now (time.Unix e)
                  then store.Unmarshal (default "" (d !! key))
                  else store.Unmarshal "")).
Proof.
  intros Ht Hd Hk Hp.
  unfold store.embedDB_Retrieve, bolt.View, bolt.GetBucket, bolt.Get.
  rewrite Ht, Hd. simpl. rewrite Ht, Hd. simpl. rewrite Hk. simpl. rewrite Hp.
  destruct (time.After now (time.Unix e)); reflexivity.
Qed.

(** A file that has the bucket "times", with a record that expires one
    minute after [fixture.noon]: before that instant [Retrieve] fails on the
    empty slice, and after it [Retrieve] returns the payload. *)
Lemma embedDB_Retrieve_inverted :
  let s := {| store.db :=
                {| bolt.root := {[ "data" := {[ "k" := "5" ]};
                                   "times" := {[ "k" := "1500000060" ]} ]};
                   bolt.commits := [] |} |} in
  snd (store.embedDB_Retrieve (V := fixture.number) fixture.noon "k" s)
  = Returned (Err ErrUnmarshal)
  /\ snd (store.embedDB_Retrieve (V := fixture.number)
            (time.addSeconds fixture.noon 120) "k" s)
     = Returned (Ok (fixture.Int 5)).
Proof. vm_compute. auto. Qed.

(** ** The local durable backend *)

(** C1 (the code departs from the specification).  The specification: [Retrieve] returns the
    stored value exactly while the expiry record is present and in the
    future.  The code: [Store] writes the expiry record into the bucket
    "expTimes" and [Retrieve] looks for it in the bucket "times"; on every
    file that has no such bucket, any [Retrieve] that follows a [Store] of the
    same key, whatever the two readings of the clock, dereferences the nil
    bucket and panics. *)
Theorem embedDB_Retrieve_after_Store {V} `{Codec V}
  (now later : time.Time) (key : string) (value : V) (ttd : Z) (s : store.embedDB) :
  bolt.root (store.db s) !! "times" = None ->
  snd (store.embedDB_Retrieve (V := V) later key
         (fst (store.embedDB_Store now key value ttd s)))
  = Panicked "invalid memory address or nil pointer dereference".
Proof.
  intros Hn. rewrite embedDB_Retrieve_no_times; [reflexivity|].
  rewrite embedDB_Store_other; done.
Qed.

Lemma embedDB_Retrieve_after_Store_witness :
  bolt.root (store.db fixture.freshFile) !! "times" = None /\
  snd (store.embedDB_Retrieve (V := fixture.number) (time.addSeconds fixture.noon 1) "k"
         (fst (store.embedDB_Store fixture.noon "k" (fixture.Int 5) 60 fixture.freshFile)))
  = Panicked "invalid memory address or nil pointer dereference".
Proof.
  split; [reflexivity|].
  apply (embedDB_Retrieve_after_Store fixture.noon (time.addSeconds fixture.noon 1)
           "k" (fixture.Int 5) 60 fixture.freshFile).
  reflexivity.
Defined.

(** ** Both backends *)

(** C4 (the code departs from the specification).  The specification: [Retrieve] of a key
    that was never written reports not-found and cannot panic.  The code: on
    the local backend the nil bucket "times" is dereferenced; on the networked
    backend the nil reply of GET fails the type assertion [data.([]byte)].
    Both calls panic. *)
Theorem Retrieve_never_written {V} `{Codec V}
  (now : time.Time) (key : string) (s : store.embedDB) (r : store.storer) :
  bolt.root (store.db s) !! "times" = None ->
  redis.up (store.pool r) = true ->
  redis.keys (store.pool r) !! key = None ->
  snd (store.embedDB_Retrieve (V := V) now key s)
  = Panicked "invalid memory address or nil pointer dereference"
  /\ snd (store.storer_Retrieve (V := V) now key r)
     = Panicked "interface conversion: interface is nil, not []uint8".
Proof.
  intros Hn Hup Hk. split.
  - by rewrite embedDB_Retrieve_no_times.
  - unfold store.storer_Retrieve, redis.Do. rewrite Hup. simpl. rewrite Hk.
    reflexivity.
Qed.

Lemma Retrieve_never_written_witness :
  snd (store.embedDB_Retrieve (V := fixture.number) fixture.noon "nobody" fixture.freshFile)
  = Panicked "invalid memory address or nil pointer dereference"
  /\ snd (store.storer_Retrieve (V := fixture.number) fixture.noon "nobody" (fixture.cache true))
     = Panicked "interface conversion: interface is nil, not []uint8".
Proof.
  apply (Retrieve_never_written fixture.noon "nobody" fixture.freshFile (fixture.cache true));
    reflexivity.
Defined.

(** ** The networked backend *)

(** C3 (the code departs from the specification).  The specification: when the write to the
    remote service fails, [Store] returns an error.  The code drops what
    [conn.Do] returns: whenever SETEX fails, with whatever error, [Store]
    returns nil and the service holds what it held. *)
Theorem storer_Store_write_failure {V} `{Codec V}
  (now : time.Time) (key : string) (value : V) (ttl : Z) (s : store.storer)
  (data : string) (e : error) :
  marshal value = Some data ->
  snd (snd (redis.Do now (redis.SETEX key ttl data) (store.pool s))) = Some e ->
  store.storer_Store now key value ttl s = (s, None).
Proof.
  intros Hm Hdo. unfold store.storer_Store. rewrite Hm.
  destruct s as [p]. simpl in *. unfold redis.Do in *.
  destruct (redis.up p); simpl in *; [|reflexivity].
  destruct (ttl <=? 0); simpl in *; [reflexivity|discriminate].
Qed.

Lemma storer_Store_write_failure_witness :
  store.storer_Store fixture.noon "k" (fixture.Int 5) 300 (fixture.cache false)
  = (fixture.cache false, None).
Proof.
  apply (storer_Store_write_failure fixture.noon "k" (fixture.Int 5) 300
           (fixture.cache false) "5" ErrRedis); reflexivity.
Defined.

(** ** The write of the local backend *)

Lemma Update_cases (fn : bolt.Tx -> bolt.Tx * option error) (d : bolt.DB) :
  (snd (bolt.Update fn d) = None
   /\ snd (fn (bolt.root d)) = None
   /\ bolt.root (fst (bolt.Update fn d)) = fst (fn (bolt.root d)))
  \/ (snd (bolt.Update fn d) <> None
      /\ bolt.root (fst (bolt.Update fn d)) = bolt.root d).
Proof.
  unfold bolt.Update.
  destruct (fn (bolt.root d)) as [tx [e|]]; simpl.
  - right. split; [discriminate|reflexivity].
  - destruct (hd true (bolt.commits d)); simpl.
    + left. auto.
    + right. split; [discriminate|reflexivity].
Qed.

(** A bucket made sure of and then written to holds the new record on top of
    what it held. *)
Lemma CreateBucketIfNotExists_Put (name key value : string) (tx tx1 tx2 : bolt.Tx) (b : string) :
  bolt.CreateBucketIfNotExists name tx = (tx1, Ok b) ->
  bolt.Put b key value tx1 = (tx2, None) ->
  tx2 !! name = Some (<[key := value]> (default ∅ (tx !! name))).
Proof.
  unfold bolt.CreateBucketIfNotExists, bolt.Put.
  destruct (String.eqb name ""); [discriminate|].
  destruct (tx !! name) as [bk|] eqn:Hb; intros [= <- <-];
    repeat match goal with |- context [if ?c then _ else _] => destruct c end;
    intros [= <-]; rewrite lookup_insert_eq; simpl.
  - rewrite Hb. reflexivity.
  - rewrite lookup_insert_eq. reflexivity.
Qed.

(** C2 as the specification writes it fails on a value that [json.Marshal]
    refuses.  The payload transaction is rolled back, the expiry transaction
    commits, and [Store] returns nil. *)
Lemma embedDB_Store_not_atomic :
  ~ Store_atomic fixture.noon "k" fixture.NaN 60 fixture.freshFile.
Proof.
  unfold Store_atomic.
  intros [(_ & (data & Hm & _) & _) | (Herr & _)].
  - discriminate Hm.
  - apply Herr. vm_compute. reflexivity.
Qed.

(** The same on a disk that fails the first commit, for a value that
    serializes: the expiry record is written without its payload and the
    call returns nil. *)
Lemma embedDB_Store_first_commit_fails :
  let r := store.embedDB_Store fixture.noon "k" (fixture.Int 5) 60 (fixture.fileOnDisk [false]) in
  snd r = None /\ payload (fst r) "k" = None /\ expiry (fst r) "k" = Some "1500000060".
Proof. vm_compute. auto. Qed.

(** And on a disk that fails the second: the payload is written without its
    expiry record, and the call returns the error. *)
Lemma embedDB_Store_second_commit_fails :
  let r := store.embedDB_Store fixture.noon "k" (fixture.Int 5) 60
             (fixture.fileOnDisk [true; false]) in
  snd r = Some (Errorf "updating database: " ErrCommit)
  /\ payload (fst r) "k" = Some "5" /\ expiry (fst r) "k" = None.
Proof. vm_compute. auto. Qed.

(** C2 (amended).  The specification as written, one atomic unit for both
    records, fails on a value that does not serialize.  What the code does:
    two transactions, each atomic on its own.  The payload record of the key
    is written on top of the payload region, or that region is left as it
    was; the expiry record is written on top of the expiry region and [Store]
    returns nil, or that region is left as it was and [Store] returns the
    error. *)
Theorem embedDB_Store_two_transactions {V} `{Codec V}
  (now : time.Time) (key : string) (value : V) (ttd : Z) (s : store.embedDB) :
  let r := store.embedDB_Store now key value ttd s in
  ((exists data, marshal value = Some data
      /\ bolt.root (store.db (fst r)) !! "data"
         = Some (<[key := data]> (default ∅ (bolt.root (store.db s) !! "data"))))
   \/ bolt.root (store.db (fst r)) !! "data" = bolt.root (store.db s) !! "data")
  /\ ((snd r = None
       /\ bolt.root (store.db (fst r)) !! "expTimes"
          = Some (<[key := expiryRecord now ttd]>
                    (default ∅ (bolt.root (store.db s) !! "expTimes"))))
      \/ (snd r <> None
          /\ bolt.root (store.db (fst r)) !! "expTimes"
             = bolt.root (store.db s) !! "expTimes")).
Proof.
  unfold store.embedDB_Store.
  match goal with
  | |- context [bolt.Update ?f (store.db s)] => set (f1 := f)
  end.
  pose proof (Update_cases f1 (store.db s)) as C1.
  pose proof (Update_other f1 (store.db s) "expTimes") as O1.
  destruct (bolt.Update f1 (store.db s)) as [d1 e1]. simpl in C1, O1.
  match goal with
  | |- context [bolt.Update ?f d1] => set (f2 := f)
  end.
  pose proof (Update_cases f2 d1) as C2.
  pose proof (Update_other f2 d1 "data") as O2.
  destruct (bolt.Update f2 d1) as [d2 e2]. simpl in C2, O2.
  assert (bolt.root d1 !! "expTimes" = bolt.root (store.db s) !! "expTimes") as K1.
  { apply O1. intros tx. subst f1. simpl.
    pose proof (CreateBucketIfNotExists_other "data" "expTimes" tx) as Hc.
    pose proof (CreateBucketIfNotExists_handle "data" tx) as Hh.
    destruct (bolt.CreateBucketIfNotExists "data" tx) as [tx' [b|e]]; simpl in *;
      [|by apply Hc].
    rewrite (Hh b eq_refl).
    destruct (marshal value); simpl; [|by apply Hc].
    rewrite Put_other by done. by apply Hc. }
  assert (bolt.root d2 !! "data" = bolt.root d1 !! "data") as K2.
  { apply O2. intros tx. subst f2. simpl.
    pose proof (CreateBucketIfNotExists_other "expTimes" "data" tx) as Hc.
    pose proof (CreateBucketIfNotExists_handle "expTimes" tx) as Hh.
    destruct (bolt.CreateBucketIfNotExists "expTimes" tx) as [tx' [b|e]]; simpl in *;
      [|by apply Hc].
    rewrite (Hh b eq_refl).
    rewrite Put_other by done. by apply Hc. }
  split.
  - (* the payload region *)
    assert ((exists data, marshal value = Some data
               /\ bolt.root d2 !! "data"
                  = Some (<[key := data]> (default ∅ (bolt.root (store.db s) !! "data"))))
            \/ bolt.root d2 !! "data" = bolt.root (store.db s) !! "data") as G.
    { rewrite K2.
      destruct C1 as [(_ & Hs & Hroot) | (_ & Hroot)]; [|right; by rewrite Hroot].
      left. rewrite Hroot. subst f1. simpl in *.
      destruct (bolt.CreateBucketIfNotExists "data" (bolt.root (store.db s)))
        as [tx1 [b|e]] eqn:Hc; simpl in *; [|discriminate].
      destruct (marshal value) as [data|]; simpl in *; [|discriminate].
      exists data. split; [reflexivity|].
      destruct (bolt.Put b key data tx1) as [tx2 [e|]] eqn:Hp; simpl in *;
        [discriminate|].
      exact (CreateBucketIfNotExists_Put _ _ _ _ _ _ _ Hc Hp). }
    destruct e2; simpl; exact G.
  - (* the expiry region *)
    destruct C2 as [(He & Hs & Hroot) | (He & Hroot)].
    + left. subst e2. simpl. split; [reflexivity|].
      rewrite Hroot, <- K1. subst f2. simpl in *.
      destruct (bolt.CreateBucketIfNotExists "expTimes" (bolt.root d1))
        as [tx1 [b|e]] eqn:Hc; simpl in *; [|discriminate].
      destruct (bolt.Put b key _ tx1) as [tx2 [e|]] eqn:Hp; simpl in *;
        [discriminate|].
      exact (CreateBucketIfNotExists_Put _ _ _ _ _ _ _ Hc Hp).
    + right. destruct e2 as [e|]; [|done]. simpl.
      split; [discriminate|]. by rewrite Hroot.
Qed.

(** ** The client-IP extractor *)

(** [getIP] never reads an address as IPv6: whatever [parseIPv6] is, the
    result is the same. *)
Lemma getIP_ignores_parseIPv6 (f g : string -> net.IP) (request : http.Request) :
  authentication.getIP f request = authentication.getIP g request.
Proof.
  unfold authentication.getIP, net.ParseIP.
  destruct (gostrings.Contains (http.RemoteAddr request) ":") eqn:Hc.
  - pose proof (firstSeparator_Split_hd (http.RemoteAddr request)) as Hn.
    destruct (net.firstSeparator _) as [a|] eqn:Hs; [|reflexivity].
    destruct (firstSeparator_cases _ _ Hs) as [->| ->]; [reflexivity|done].
  - pose proof (Contains_colon_firstSeparator _ Hc) as Hn.
    destruct (net.firstSeparator _) as [a|] eqn:Hs; [|reflexivity].
    destruct (firstSeparator_cases _ _ Hs) as [->| ->]; [reflexivity|done].
Qed.

Lemma Contains_colon_app (host port : string) :
  gostrings.Contains (host +:+ String ":" port) ":" = true.
Proof.
  induction host as [|a host IH]; simpl.
  - destruct port; reflexivity.
  - rewrite IH. apply orb_true_r.
Qed.

Lemma Split_colon_app (host port : string) :
  gostrings.Contains host ":" = false ->
  hd "" (gostrings.Split (host +:+ String ":" port) ":") = host.
Proof.
  induction host as [|a host IH]; simpl; [reflexivity|].
  destruct (Ascii.eqb_spec a ":") as [->|Hne]; simpl.
  - destruct host; discriminate.
  - intros Hc. specialize (IH Hc).
    pose proof (Split_nonempty (host +:+ String ":" port) ":") as Hn.
    destruct (gostrings.Split (host +:+ String ":" port) ":"); [done|].
    simpl in *. by rewrite IH.
Qed.

(** For a host without [':'] (an IPv4 address in text) in front of a port,
    the extractor returns the parsed host. *)
Lemma getIP_IPv4_hostport (f : string -> net.IP) (host port : string) (cs : list http.Cookie) :
  gostrings.Contains host ":" = false ->
  authentication.getIP f {| http.RemoteAddr := host +:+ String ":" port; http.Cookies := cs |}
  = net.ParseIP f host.
Proof.
  intros Hc. unfold authentication.getIP. simpl.
  rewrite Contains_colon_app. by rewrite Split_colon_app.
Qed.

(** C9 (the code departs from the specification).  The specification: for a source address
    host:port the extractor returns the parsed host.  The code cuts the
    address at its first [':'], not at the one in front of the port: for the
    IPv6 source address "[::1]:8080" it parses "[" and returns nil, whatever
    [net.ParseIP] makes of the host "::1". *)
Theorem getIP_IPv6_hostport (parseIPv6 : string -> net.IP) (cs : list http.Cookie) :
  authentication.getIP parseIPv6
    {| http.RemoteAddr := "[::1]:8080"; http.Cookies := cs |} = []
  /\ net.ParseIP parseIPv6 "::1" = parseIPv6 "::1".
Proof. split; reflexivity. Qed.

(** ** Sessions *)

(** C5 (the code departs from the specification).  The specification: [createSession]
    followed by [resolveSession] from the same client returns the user.  On
    the local backend the session is stored and the lookup that follows
    panics in [Retrieve], for every user and every file without a bucket
    "times". *)
Theorem session_after_create_local (parseIPv6 : string -> net.IP)
  {Attrs} `{Codec (authentication.AuthenticatedUser Attrs)}
  (now later : time.Time) (sessionID : string) (writer : http.ResponseWriter)
  (s : store.embedDB) (user : authentication.AuthenticatedUser Attrs)
  (lg : list logLine) (request : http.Request) (c : http.Cookie) :
  bolt.root (store.db s) !! "times" = None ->
  http.Request_Cookie request "lidp-user" = Ok c ->
  http.Value c = sessionID ->
  let '(_, st, lg1) := authentication.storeUserInSession now sessionID writer s user lg in
  snd (authentication.retrieveUserFromSession parseIPv6 later request st lg1)
  = Panicked "invalid memory address or nil pointer dereference".
Proof.
  intros Hn Hc Hv.
  unfold authentication.storeUserInSession. simpl.
  pose proof (embedDB_Store_other now sessionID user 28800 s "times") as Ho.
  destruct (store.embedDB_Store now sessionID user 28800 s) as [st e].
  simpl in Ho. rewrite <- Ho in Hn by done.
  assert (forall lg1, snd (authentication.retrieveUserFromSession parseIPv6 later request st lg1)
          = Panicked "invalid memory address or nil pointer dereference") as G.
  { intros lg1. unfold authentication.retrieveUserFromSession.
    rewrite Hc. simpl. rewrite embedDB_Retrieve_no_times by done. reflexivity. }
  destruct e; apply G.
Qed.

Lemma session_after_create_local_witness :
  let request := {| http.RemoteAddr := "10.0.0.5:4242";
                    http.Cookies := [fixture.session_cookie "id-1"] |} in
  let '(_, st, lg1) :=
    authentication.storeUserInSession fixture.noon "id-1" [] fixture.freshFile fixture.alice [] in
  snd (authentication.retrieveUserFromSession fixture.parseIPv6
         (time.addSeconds fixture.noon 5) request st lg1)
  = Panicked "invalid memory address or nil pointer dereference".
Proof.
  apply (session_after_create_local fixture.parseIPv6 fixture.noon
           (time.addSeconds fixture.noon 5) "id-1" [] fixture.freshFile fixture.alice []
           {| http.RemoteAddr := "10.0.0.5:4242";
              http.Cookies := [fixture.session_cookie "id-1"] |}
           (fixture.session_cookie "id-1")); reflexivity.
Defined.

(** The same sequence on the networked backend, the service reachable, for a
    client on the IPv6 loopback address: the session is stored, and the
    lookup from the same address finds a different IP and returns none. *)
Lemma session_after_create_IPv6 :
  let request := {| http.RemoteAddr := "[::1]:4242";
                    http.Cookies := [fixture.session_cookie "id-2"] |} in
  let '(_, st, lg1) :=
    authentication.storeUserInSession fixture.noon "id-2" [] (fixture.cache true) fixture.carol [] in
  net.ParseIP fixture.parseIPv6 "::1" = authentication.IP fixture.carol
  /\ snd (authentication.retrieveUserFromSession fixture.parseIPv6
            (time.addSeconds fixture.noon 5) request st lg1)
     = Returned None.
Proof. vm_compute. auto. Qed.

(** The branch of the IP comparison, on its own: whenever [Retrieve] did
    yield the session and the IP derived from the request differs from the
    IP recorded in it, the warning is written to the log and none is
    returned. *)
Lemma resolveSession_IP_mismatch (parseIPv6 : string -> net.IP)
  {Attrs} `{Codec (authentication.AuthenticatedUser Attrs)}
  {S} `{store.Storer S}
  (now : time.Time) (request : http.Request) (st st' : S) (lg : list logLine)
  (c : http.Cookie) (user : authentication.AuthenticatedUser Attrs) :
  http.Request_Cookie request "lidp-user" = Ok c ->
  store.Retrieve now (http.Value c) st = (st', Returned (Ok user)) ->
  net.Equal (authentication.getIP parseIPv6 request) (authentication.IP user) = false ->
  authentication.retrieveUserFromSession parseIPv6 now request st lg
  = (st',
     (lg ++ [LogText ("Using exising session for " +:+ authentication.Name user)])
       ++ [LogText "Warning - Existing session associated with a different IP address."],
     Returned None).
Proof.
  intros Hc Hr Hip. unfold authentication.retrieveUserFromSession.
  rewrite Hc, Hr, Hip. reflexivity.
Qed.

Lemma resolveSession_IP_mismatch_witness :
  let st := snd (fst (authentication.storeUserInSession
                        fixture.noon "id-1" [] (fixture.cache true) fixture.alice [])) in
  let request := {| http.RemoteAddr := "10.0.0.9:4242";
                    http.Cookies := [fixture.session_cookie "id-1"] |} in
  authentication.retrieveUserFromSession fixture.parseIPv6
    (time.addSeconds fixture.noon 3600) request st []
  = (st,
     [LogText "Using exising session for alice";
      LogText "Warning - Existing session associated with a different IP address."],
     Returned None).
Proof.
  apply (resolveSession_IP_mismatch fixture.parseIPv6
           (time.addSeconds fixture.noon 3600)
           {| http.RemoteAddr := "10.0.0.9:4242";
              http.Cookies := [fixture.session_cookie "id-1"] |}
           _ _ [] (fixture.session_cookie "id-1") fixture.alice);
    reflexivity.
Defined.

(** C6 (the code departs from the specification).  The specification: a
    stored session within its life, resolved from a request whose IP differs
    from the recorded one, makes [resolveSession] log a warning and return
    none, never an error.  On the local backend the session is stored, and
    the lookup from the other address panics in [Retrieve] before the IPs are
    compared: no warning is logged and nothing is returned.  This holds for
    every user and every file without a bucket "times". *)
Theorem session_mismatch_local (parseIPv6 : string -> net.IP)
  {Attrs} `{Codec (authentication.AuthenticatedUser Attrs)}
  (now later : time.Time) (sessionID : string) (writer : http.ResponseWriter)
  (s : store.embedDB) (user : authentication.AuthenticatedUser Attrs)
  (lg : list logLine) (request : http.Request) (c : http.Cookie) :
  bolt.root (store.db s) !! "times" = None ->
  http.Request_Cookie request "lidp-user" = Ok c ->
  http.Value c = sessionID ->
  net.Equal (authentication.getIP parseIPv6 request) (authentication.IP user) = false ->
  let '(_, st, lg1) := authentication.storeUserInSession now sessionID writer s user lg in
  authentication.retrieveUserFromSession parseIPv6 later request st lg1
  = (st, lg1, Panicked "invalid memory address or nil pointer dereference").
Proof.
  intros Hn Hc Hv _.
  unfold authentication.storeUserInSession. simpl.
  pose proof (embedDB_Store_other now sessionID user 28800 s "times") as Ho.
  destruct (store.embedDB_Store now sessionID user 28800 s) as [st e].
  simpl in Ho. rewrite <- Ho in Hn by done.
  assert (forall lg1, authentication.retrieveUserFromSession parseIPv6 later request st lg1
          = (st, lg1, Panicked "invalid memory address or nil pointer dereference")) as G.
  { intros lg1. unfold authentication.retrieveUserFromSession.
    rewrite Hc. simpl. rewrite embedDB_Retrieve_no_times by done. reflexivity. }
  destruct e; apply G.
Qed.

Lemma session_mismatch_local_witness :
  let request := {| http.RemoteAddr := "10.0.0.9:4242";
                    http.Cookies := [fixture.session_cookie "id-1"] |} in
  net.Equal (authentication.getIP fixture.parseIPv6 request)
    (authentication.IP fixture.alice) = false
  /\ let '(_, st, lg1) :=
       authentication.storeUserInSession fixture.noon "id-1" [] fixture.freshFile
         fixture.alice [] in
     authentication.retrieveUserFromSession fixture.parseIPv6
       (time.addSeconds fixture.noon 3600) request st lg1
     = (st, lg1, Panicked "invalid memory address or nil pointer dereference").
Proof.
  split; [reflexivity|].
  exact (session_mismatch_local fixture.parseIPv6 fixture.noon
           (time.addSeconds fixture.noon 3600) "id-1" [] fixture.freshFile fixture.alice []
           {| http.RemoteAddr := "10.0.0.9:4242";
              http.Cookies := [fixture.session_cookie "id-1"] |}
           (fixture.session_cookie "id-1") eq_refl eq_refl eq_refl eq_refl).
Defined.

(** ** Request state *)

(** [saveState] relative to what [Store] returns: when [Store] returned an
    error, that error is returned and the response carries the cookies it
    carried; when [Store] returned nil, the cookie "lidp-rs" with the fresh
    identifier is added to them. *)
Lemma storeRequestState_cookie
  {Req} `{Codec (authentication.RequestState Req)} {S} `{store.Storer S}
  (now : time.Time) (sessionID : string) (writer : http.ResponseWriter) (st : S)
  (authnRequest : option Req) (relayState : string) :
  let w := store.Store now sessionID
             {| authentication.AuthnRequest := authnRequest;
                authentication.RelayState := relayState |} 300 st in
  let r := authentication.storeRequestState now sessionID writer st authnRequest relayState in
  snd (fst r) = fst w
  /\ snd r = snd w
  /\ ((exists e, snd w = Some e /\ fst (fst r) = writer)
      \/ (snd w = None
          /\ fst (fst r)
             = writer ++ [{| http.Name := "lidp-rs"; http.Value := sessionID;
                             http.Path := "/"; http.HttpOnly := true;
                             http.Secure := true |}])).
Proof.
  unfold authentication.storeRequestState.
  destruct (store.Store now sessionID _ 300 st) as [st' [e|]]; simpl.
  - split; [reflexivity|]. split; [reflexivity|]. left. eauto.
  - split; [reflexivity|]. split; [reflexivity|]. right. auto.
Qed.

(** Both cases happen: a write that fails (the commit of the expiry record
    does not reach the disk), and one that succeeds. *)
Lemma storeRequestState_failed_write :
  let r := authentication.storeRequestState fixture.noon "id-7" []
             (fixture.fileOnDisk [true; false]) (Some "req-7") "/home" in
  snd r = Some (Errorf "updating database: " ErrCommit) /\ fst (fst r) = [].
Proof. vm_compute. auto. Qed.

Lemma storeRequestState_good_write :
  let r := authentication.storeRequestState fixture.noon "id-7" []
             (fixture.cache true) (Some "req-7") "/home" in
  snd r = None /\ fst (fst r) = [fixture.state_cookie "id-7"].
Proof. vm_compute. auto. Qed.

(** C8 (the code departs from the specification).  The specification: when
    the store write fails, [saveState] returns the error and does not set the
    cookie.  On the networked backend with the service out of reach the write
    fails (SETEX returns an error) and nothing is stored, yet [Store] returns
    nil, so [saveState] sets the cookie "lidp-rs" and returns nil.  This
    holds for every state that serializes. *)
Theorem saveState_unreachable
  {Req} `{Codec (authentication.RequestState Req)}
  (now : time.Time) (sessionID : string) (writer : http.ResponseWriter)
  (ks : gmap string (string * time.Time)) (authnRequest : option Req) (relayState : string)
  (data : string) :
  marshal {| authentication.AuthnRequest := authnRequest;
             authentication.RelayState := relayState |} = Some data ->
  let s := {| store.pool := {| redis.up := false; redis.keys := ks |} |} in
  redis.Do now (redis.SETEX sessionID 300 data) (store.pool s)
  = (store.pool s, (redis.Nil, Some ErrRedis))
  /\ authentication.storeRequestState now sessionID writer s authnRequest relayState
     = (writer ++ [{| http.Name := "lidp-rs"; http.Value := sessionID;
                      http.Path := "/"; http.HttpOnly := true; http.Secure := true |}],
        s, None).
Proof.
  intros Hm. cbv zeta. split; [reflexivity|].
  unfold authentication.storeRequestState. simpl.
  unfold store.storer_Store. rewrite Hm. reflexivity.
Qed.

Lemma saveState_unreachable_witness :
  redis.Do fixture.noon (redis.SETEX "id-7" 300 (String "S" (String "005" "req-7/home")))
    (store.pool (fixture.cache false))
  = (store.pool (fixture.cache false), (redis.Nil, Some ErrRedis))
  /\ authentication.storeRequestState fixture.noon "id-7" [] (fixture.cache false)
       (Some "req-7") "/home"
     = ([fixture.state_cookie "id-7"], fixture.cache false, None).
Proof.
  exact (saveState_unreachable fixture.noon "id-7" [] ∅ (Some "req-7") "/home"
           (String "S" (String "005" "req-7/home")) eq_refl).
Defined.

(** C7 (the code departs from the specification).  The specification: a successful
    [saveState] followed by [loadState] with the issued cookie returns the
    pair saved.  On the local backend the [loadState] that follows panics in
    [Retrieve], for every pair and every file without a bucket "times". *)
Theorem loadState_after_save_local
  {Req} `{Codec (authentication.RequestState Req)}
  (now later : time.Time) (sessionID : string) (writer : http.ResponseWriter)
  (s : store.embedDB) (authnRequest : option Req) (relayState : string)
  (lg : list logLine) (request : http.Request) (c : http.Cookie) :
  bolt.root (store.db s) !! "times" = None ->
  http.Request_Cookie request "lidp-rs" = Ok c ->
  http.Value c = sessionID ->
  let '(_, st, _) :=
    authentication.storeRequestState now sessionID writer s authnRequest relayState in
  snd (authentication.retrieveRequestState later request st lg)
  = Panicked "invalid memory address or nil pointer dereference".
Proof.
  intros Hn Hc Hv.
  unfold authentication.storeRequestState. simpl.
  match goal with
  | |- context [store.embedDB_Store now sessionID ?v 300 s] =>
      pose proof (embedDB_Store_other now sessionID v 300 s "times") as Ho;
      destruct (store.embedDB_Store now sessionID v 300 s) as [st e]
  end.
  simpl in Ho. rewrite <- Ho in Hn by done.
  assert (snd (authentication.retrieveRequestState later request st lg)
          = Panicked "invalid memory address or nil pointer dereference") as G.
  { unfold authentication.retrieveRequestState.
    rewrite Hc. simpl. rewrite embedDB_Retrieve_no_times by done. reflexivity. }
  destruct e; apply G.
Qed.

Lemma loadState_after_save_local_witness :
  let saved := authentication.storeRequestState fixture.noon "id-7" []
                 fixture.freshFile (Some "req-7") "/home" in
  let request := {| http.RemoteAddr := "10.0.0.5:4242";
                    http.Cookies := fst (fst saved) |} in
  snd saved = None
  /\ snd (authentication.retrieveRequestState (time.addSeconds fixture.noon 1)
            request (snd (fst saved)) [])
     = Panicked "invalid memory address or nil pointer dereference".
Proof.
  split; [reflexivity|].
  exact (loadState_after_save_local fixture.noon (time.addSeconds fixture.noon 1)
           "id-7" [] fixture.freshFile (Some "req-7") "/home" []
           {| http.RemoteAddr := "10.0.0.5:4242";
              http.Cookies := [fixture.state_cookie "id-7"] |}
           (fixture.state_cookie "id-7") eq_refl eq_refl eq_refl).
Defined.

(** The same on the networked backend while the service cannot be reached:
    [saveState] sets the cookie and returns nil, and the [loadState] that
    follows returns no request. *)
Lemma loadState_after_save_unreachable
  {Req} `{Codec (authentication.RequestState Req)}
  (now later : time.Time) (sessionID : string) (writer : http.ResponseWriter)
  (ks : gmap string (string * time.Time)) (authnRequest : option Req) (relayState : string)
  (lg : list logLine) (request : http.Request) (c : http.Cookie) (data : string) :
  marshal {| authentication.AuthnRequest := authnRequest;
             authentication.RelayState := relayState |} = Some data ->
  http.Request_Cookie request "lidp-rs" = Ok c ->
  let s := {| store.pool := {| redis.up := false; redis.keys := ks |} |} in
  authentication.storeRequestState now sessionID writer s authnRequest relayState
  = (writer ++ [fixture.state_cookie sessionID], s, None)
  /\ authentication.retrieveRequestState later request s lg
     = (s, lg ++ [LogError ErrRedis], Returned (None, "")).
Proof.
  intros Hm Hc. split.
  - unfold authentication.storeRequestState. simpl.
    unfold store.storer_Store. rewrite Hm. reflexivity.
  - unfold authentication.retrieveRequestState. rewrite Hc. reflexivity.
Qed.

(** ** Reads do not consume *)

Lemma storer_Retrieve_live {V} `{Codec V}
  (now : time.Time) (key : string) (r : store.storer) (data : string) (exp : time.Time) :
  redis.up (store.pool r) = true ->
  redis.keys (store.pool r) !! key = Some (data, exp) ->
  time.After now exp = false ->
  store.storer_Retrieve (V := V) now key r = (r, Returned (store.Unmarshal data)).
Proof.
  intros Hup Hk Ha. destruct r as [p]. simpl in *.
  unfold store.storer_Retrieve, redis.Do. simpl. rewrite Hup. simpl.
  rewrite Hk, Ha. reflexivity.
Qed.


(** [Store] and then [Retrieve] on the networked backend, the service
    reachable and the key within its life. *)
Lemma storer_Retrieve_after_Store {V} `{Codec V}
  (now later : time.Time) (key : string) (value : V) (ttl : Z) (r : store.storer)
  (data : string) :
  redis.up (store.pool r) = true ->
  marshal value = Some data ->
  0 < ttl ->
  time.After later (time.addSeconds now ttl) = false ->
  snd (store.storer_Retrieve (V := V) later key
         (fst (store.storer_Store now key value ttl r)))
  = Returned (store.Unmarshal data).
Proof.
  intros Hup Hm Httl Ha. unfold store.storer_Store. rewrite Hm.
  unfold redis.Do at 1. rewrite Hup. simpl.
  destruct (Z.leb_spec ttl 0) as [Hle|_]; [lia|]. simpl.
  erewrite storer_Retrieve_live; [reflexivity|reflexivity| |exact Ha].
  simpl. apply lookup_insert_eq.
Qed.




(** ** Where the round trips do hold: the networked backend, reachable *)

(** [createSession] and then [resolveSession] within the eight hours, from an
    address that [getIP] reads as the IP recorded in the user. *)
Lemma session_after_create_networked (parseIPv6 : string -> net.IP)
  {Attrs} `{Codec (authentication.AuthenticatedUser Attrs)}
  (now later : time.Time) (sessionID : string) (writer : http.ResponseWriter)
  (r : store.storer) (user : authentication.AuthenticatedUser Attrs)
  (lg : list logLine) (request : http.Request) (c : http.Cookie) (data : string) :
  redis.up (store.pool r) = true ->
  marshal user = Some data ->
  unmarshal data = Some user ->
  time.After later (time.addSeconds now 28800) = false ->
  http.Request_Cookie request "lidp-user" = Ok c ->
  http.Value c = sessionID ->
  net.Equal (authentication.getIP parseIPv6 request) (authentication.IP user) = true ->
  let '(_, st, lg1) := authentication.storeUserInSession now sessionID writer r user lg in
  snd (authentication.retrieveUserFromSession parseIPv6 later request st lg1)
  = Returned (Some user).
Proof.
  intros Hup Hm Hu Ha Hc Hv Hip.
  unfold authentication.storeUserInSession. simpl.
  pose proof (storer_Retrieve_after_Store now later sessionID user 28800 r data
                Hup Hm ltac:(lia) Ha) as Hr.
  destruct (store.storer_Store now sessionID user 28800 r) as [st e].
  simpl in Hr.
  assert (forall lg1, snd (authentication.retrieveUserFromSession parseIPv6 later request st lg1)
                      = Returned (Some user)) as G.
  { intros lg1. unfold authentication.retrieveUserFromSession.
    rewrite Hc, Hv. simpl.
    destruct (store.storer_Retrieve later sessionID st) as [st' o].
    simpl in Hr. subst o. unfold store.Unmarshal. rewrite Hu, Hip. reflexivity. }
  destruct e; apply G.
Qed.

(** [saveState] and then [loadState] within the five minutes. *)
Lemma loadState_after_save_networked
  {Req} `{Codec (authentication.RequestState Req)}
  (now later : time.Time) (sessionID : string) (writer : http.ResponseWriter)
  (r : store.storer) (authnRequest : option Req) (relayState : string)
  (lg : list logLine) (request : http.Request) (c : http.Cookie) (data : string) :
  redis.up (store.pool r) = true ->
  marshal {| authentication.AuthnRequest := authnRequest;
             authentication.RelayState := relayState |} = Some data ->
  unmarshal data = Some {| authentication.AuthnRequest := authnRequest;
                           authentication.RelayState := relayState |} ->
  time.After later (time.addSeconds now 300) = false ->
  http.Request_Cookie request "lidp-rs" = Ok c ->
  http.Value c = sessionID ->
  let '(_, st, err) :=
    authentication.storeRequestState now sessionID writer r authnRequest relayState in
  err = None
  /\ snd (authentication.retrieveRequestState later request st lg)
     = Returned (authnRequest, relayState).
Proof.
  intros Hup Hm Hu Ha Hc Hv.
  unfold authentication.storeRequestState. simpl.
  match goal with
  | |- context [store.storer_Store now sessionID ?v 300 r] =>
      pose proof (storer_Retrieve_after_Store now later sessionID v 300 r data
                    Hup Hm ltac:(lia) Ha) as Hr;
      assert (snd (store.storer_Store now sessionID v 300 r) = None) as He
        by (unfold store.storer_Store; rewrite Hm;
            destruct (redis.Do _ _ _); reflexivity);
      destruct (store.storer_Store now sessionID v 300 r) as [st e]
  end.
  simpl in Hr, He. subst e. split; [reflexivity|].
  unfold authentication.retrieveRequestState. rewrite Hc, Hv. simpl.
  destruct (store.storer_Retrieve later sessionID st) as [st' o].
  simpl in Hr. subst o. unfold store.Unmarshal. rewrite Hu. reflexivity.
Qed.

(** * Further properties of the code *)

(** ** The expiry record is a decimal timestamp *)

Lemma parseDigits_string_of_uint (d : Decimal.uint) (acc : Z) :
  strconv.parseDigits (NilEmpty.string_of_uint d) acc = Some (decimalValue d acc).
Proof.
  revert acc. induction d; intros acc; simpl; try reflexivity;
    rewrite IHd; reflexivity.
Qed.

Lemma decimalValue_of_uint_acc (d : Decimal.uint) (p : positive) :
  decimalValue d (Z.pos p) = Z.pos (Pos.of_uint_acc d p).
Proof.
  revert p. induction d; intros p; simpl; try reflexivity;
    rewrite <- IHd; f_equal; lia.
Qed.

Lemma decimalValue_of_uint (d : Decimal.uint) :
  decimalValue d 0 = Z.of_N (Pos.of_uint d).
Proof.
  induction d; simpl; try reflexivity; try exact IHd;
    apply decimalValue_of_uint_acc.
Qed.

Lemma decimalValue_to_uint (p : positive) :
  decimalValue (Pos.to_uint p) 0 = Z.pos p.
Proof.
  rewrite decimalValue_of_uint, DecimalPos.Unsigned.of_to. reflexivity.
Qed.

Lemma wrap64_range (z : Z) : - 2 ^ 63 <= wrap64 z < 2 ^ 63.
Proof.
  unfold wrap64.
  pose proof (Z.mod_pos_bound (z + 2 ^ 63) (2 ^ 64) ltac:(lia)). lia.
Qed.

(** Reading a run of digits that does not start with a sign, with and without
    a minus sign in front. *)
Lemma ParseInt_digits (t : string) (a : ascii) (rest : string) (v : Z) :
  t = String a rest ->
  Ascii.eqb a "+" = false -> Ascii.eqb a "-" = false ->
  strconv.parseDigits t 0 = Some v ->
  (v < 2 ^ 63 -> strconv.ParseInt t = (v, None))
  /\ (v <= 2 ^ 63 -> strconv.ParseInt (String "-" t) = (- v, None)).
Proof.
  intros -> Hplus Hminus Hp. split; intros Hv; unfold strconv.ParseInt.
  - rewrite Hplus, Hminus. simpl orb. cbv iota beta zeta. rewrite Hp.
    simpl negb. simpl andb.
    destruct (Z.leb_spec (2 ^ 63) v); [lia|reflexivity].
  - change (Ascii.eqb "-" "-") with true. change (Ascii.eqb "-" "+") with false.
    simpl orb. cbv iota beta zeta. rewrite Hp. simpl negb. simpl andb.
    destruct (Z.ltb_spec (2 ^ 63) v); [lia|reflexivity].
Qed.

(** The decimal text of a positive number starts with a digit: neither a
    sign nor the end of the text. *)
Lemma string_of_uint_head (p : positive) :
  exists a rest,
    NilZero.string_of_uint (Pos.to_uint p) = String a rest
    /\ NilEmpty.string_of_uint (Pos.to_uint p) = String a rest
    /\ Ascii.eqb a "+" = false /\ Ascii.eqb a "-" = false.
Proof.
  pose proof (DecimalPos.Unsigned.to_uint_nonnil p) as Hn.
  destruct (Pos.to_uint p); [done|..]; simpl; eauto 10.
Qed.

(** [strconv.ParseInt] reads back what [strconv.FormatInt] wrote, for every
    64-bit integer. *)
Lemma ParseInt_FormatInt (z : Z) :
  - 2 ^ 63 <= z < 2 ^ 63 ->
  strconv.ParseInt (strconv.FormatInt z) = (z, None).
Proof.
  intros Hz. unfold strconv.FormatInt.
  destruct z as [|p|p]; [reflexivity| |];
    destruct (string_of_uint_head p) as (a & rest & Hz0 & Hs & Hplus & Hminus);
    pose proof (parseDigits_string_of_uint (Pos.to_uint p) 0) as Hp;
    rewrite decimalValue_to_uint, Hs in Hp;
    destruct (ParseInt_digits (String a rest) a rest (Z.pos p) eq_refl Hplus Hminus Hp)
      as [Hpos Hneg];
    simpl; rewrite Hz0.
  - apply Hpos. lia.
  - apply Hneg. lia.
Qed.

(** The expiry record [Store] writes parses, without error, to the instant
    [Store] computed: the clock in Unix seconds plus the life, in 64 bits. *)
Theorem expiryRecord_parses (now : time.Time) (ttd : Z) :
  strconv.ParseInt (expiryRecord now ttd)
  = (wrap64 (time.ToUnix now + wrap64 ttd), None).
Proof.
  unfold expiryRecord. apply ParseInt_FormatInt.
  pose proof (wrap64_range (time.ToUnix now + wrap64 ttd)). lia.
Qed.

(** ** The local backend: what a write changes *)

(** Each region after [Store] is the region before, or the region before
    with one record written for [key]. *)
Lemma embedDB_Store_regions {V} `{Codec V}
  (now : time.Time) (key : string) (value : V) (ttd : Z) (s : store.embedDB) :
  let r := store.embedDB_Store now key value ttd s in
  (bolt.root (store.db (fst r)) !! "data" = bolt.root (store.db s) !! "data"
   \/ exists data,
        bolt.root (store.db (fst r)) !! "data"
        = Some (<[key := data]> (default ∅ (bolt.root (store.db s) !! "data"))))
  /\ (bolt.root (store.db (fst r)) !! "expTimes" = bolt.root (store.db s) !! "expTimes"
      \/ bolt.root (store.db (fst r)) !! "expTimes"
         = Some (<[key := expiryRecord now ttd]>
                   (default ∅ (bolt.root (store.db s) !! "expTimes")))).
Proof.
  unfold store.embedDB_Store.
  match goal with
  | |- context [bolt.Update ?f (store.db s)] => set (f1 := f)
  end.
  pose proof (Update_cases f1 (store.db s)) as C1.
  pose proof (Update_other f1 (store.db s) "expTimes") as O1.
  destruct (bolt.Update f1 (store.db s)) as [d1 e1]. simpl in C1, O1.
  match goal with
  | |- context [bolt.Update ?f d1] => set (f2 := f)
  end.
  pose proof (Update_cases f2 d1) as C2.
  pose proof (Update_other f2 d1 "data") as O2.
  destruct (bolt.Update f2 d1) as [d2 e2]. simpl in C2, O2.
  assert (bolt.root d1 !! "expTimes" = bolt.root (store.db s) !! "expTimes") as K1.
  { apply O1. intros tx. subst f1. simpl.
    pose proof (CreateBucketIfNotExists_other "data" "expTimes" tx) as Hc.
    pose proof (CreateBucketIfNotExists_handle "data" tx) as Hh.
    destruct (bolt.CreateBucketIfNotExists "data" tx) as [tx' [b|e]]; simpl in *;
      [|by apply Hc].
    rewrite (Hh b eq_refl).
    destruct (marshal value); simpl; [|by apply Hc].
    rewrite Put_other by done. by apply Hc. }
  assert (bolt.root d2 !! "data" = bolt.root d1 !! "data") as K2.
  { apply O2. intros tx. subst f2. simpl.
    pose proof (CreateBucketIfNotExists_other "expTimes" "data" tx) as Hc.
    pose proof (CreateBucketIfNotExists_handle "expTimes" tx) as Hh.
    destruct (bolt.CreateBucketIfNotExists "expTimes" tx) as [tx' [b|e]]; simpl in *;
      [|by apply Hc].
    rewrite (Hh b eq_refl).
    rewrite Put_other by done. by apply Hc. }
  assert ((bolt.root d2 !! "data" = bolt.root (store.db s) !! "data"
           \/ exists data,
                bolt.root d2 !! "data"
                = Some (<[key := data]> (default ∅ (bolt.root (store.db s) !! "data"))))
          /\ (bolt.root d2 !! "expTimes" = bolt.root (store.db s) !! "expTimes"
              \/ bolt.root d2 !! "expTimes"
                 = Some (<[key := expiryRecord now ttd]>
                           (default ∅ (bolt.root (store.db s) !! "expTimes"))))) as G.
  { split.
    - rewrite K2.
      destruct C1 as [(_ & Hs & Hroot) | (_ & Hroot)]; [|left; by rewrite Hroot].
      right. rewrite Hroot. subst f1. simpl in *.
      destruct (bolt.CreateBucketIfNotExists "data" (bolt.root (store.db s)))
        as [tx1 [b|e]] eqn:Hc; simpl in *; [|discriminate].
      destruct (marshal value) as [data|]; simpl in *; [|discriminate].
      exists data.
      destruct (bolt.Put b key data tx1) as [tx2 [e|]] eqn:Hp; simpl in *;
        [discriminate|].
      exact (CreateBucketIfNotExists_Put _ _ _ _ _ _ _ Hc Hp).
    - destruct C2 as [(_ & Hs & Hroot) | (_ & Hroot)];
        [|left; by rewrite Hroot].
      right. rewrite Hroot, <- K1. subst f2. simpl in *.
      destruct (bolt.CreateBucketIfNotExists "expTimes" (bolt.root d1))
        as [tx1 [b|e]] eqn:Hc; simpl in *; [|discriminate].
      destruct (bolt.Put b key _ tx1) as [tx2 [e|]] eqn:Hp; simpl in *;
        [discriminate|].
      exact (CreateBucketIfNotExists_Put _ _ _ _ _ _ _ Hc Hp). }
  destruct e2; simpl; exact G.
Qed.

(** [Store] under one key leaves the payload and the expiry record of every
    other key, and every other bucket, as they were: whether it succeeds or
    fails. *)
Theorem embedDB_Store_frame {V} `{Codec V}
  (now : time.Time) (key : string) (value : V) (ttd : Z) (s : store.embedDB)
  (other : string) :
  other <> key ->
  let s' := fst (store.embedDB_Store now key value ttd s) in
  payload s' other = payload s other /\ expiry s' other = expiry s other.
Proof.
  intros Hne. cbv zeta. unfold payload, expiry.
  destruct (embedDB_Store_regions now key value ttd s) as [[Hd|[data Hd]] [He|He]];
    rewrite Hd, He; simpl; rewrite ?lookup_insert_ne by done; done.
Qed.

Lemma embedDB_Store_frame_witness :
  let s := fst (store.embedDB_Store fixture.noon "a" (fixture.Int 1) 60 fixture.freshFile) in
  let s' := fst (store.embedDB_Store fixture.noon "b" (fixture.Int 2) 60 s) in
  payload s' "a" = payload s "a" /\ expiry s' "a" = expiry s "a".
Proof.
  exact (embedDB_Store_frame fixture.noon "b" (fixture.Int 2) 60
           (fst (store.embedDB_Store fixture.noon "a" (fixture.Int 1) 60 fixture.freshFile))
           "a" ltac:(discriminate)).
Defined.

(** A key that bolt refuses (empty, or longer than [MaxKeySize]): neither
    record is written, the file is as it was, and [Store] returns bolt's error
    behind the prefix of [Store]. *)
Theorem embedDB_Store_bad_key {V} `{Codec V}
  (now : time.Time) (key : string) (value : V) (ttd : Z) (s : store.embedDB) :
  String.length key = 0%nat \/ bolt.MaxKeySize < Z.of_nat (String.length key) ->
  store.embedDB_Store now key value ttd s
  = (s, Some (Errorf "updating database: "
                (if (String.length key =? 0)%nat then ErrKeyRequired else ErrKeyTooLarge))).
Proof.
  intros Hk.
  unfold store.embedDB_Store, bolt.Update, bolt.CreateBucketIfNotExists, bolt.Put.
  destruct s as [[rt cm]]. cbn [store.db bolt.root bolt.commits String.eqb Ascii.eqb Bool.eqb].
  destruct (Nat.eqb_spec (String.length key) 0) as [H0|H0].
  - destruct (rt !! "data"), (marshal value); cbn [bolt.root bolt.commits];
      destruct (rt !! "expTimes"); reflexivity.
  - destruct (Z.ltb_spec bolt.MaxKeySize (Z.of_nat (String.length key))) as [H1|H1];
      [|lia].
    destruct (rt !! "data"), (marshal value); cbn [bolt.root bolt.commits];
      destruct (rt !! "expTimes"); reflexivity.
Qed.

Lemma embedDB_Store_bad_key_witness :
  store.embedDB_Store fixture.noon "" (fixture.Int 5) 60 fixture.freshFile
  = (fixture.freshFile, Some (Errorf "updating database: " ErrKeyRequired)).
Proof.
  exact (embedDB_Store_bad_key fixture.noon "" (fixture.Int 5) 60 fixture.freshFile
           (or_introl eq_refl)).
Defined.

(** When [Store] returns nil, the first commit reached the disk and the value
    serializes to at most [MaxValueSize] bytes, both records of the key are
    in the file: the serialized value and the expiry record, whatever the
    file held for the key before. *)
Theorem embedDB_Store_success {V} `{Codec V}
  (now : time.Time) (key : string) (value : V) (ttd : Z) (s : store.embedDB)
  (data : string) :
  snd (store.embedDB_Store now key value ttd s) = None ->
  hd true (bolt.commits (store.db s)) = true ->
  marshal value = Some data ->
  Z.of_nat (String.length data) <= bolt.MaxValueSize ->
  payload (fst (store.embedDB_Store now key value ttd s)) key = Some data
  /\ expiry (fst (store.embedDB_Store now key value ttd s)) key
     = Some (expiryRecord now ttd).
Proof.
  intros Hr Hc Hm Hl. revert Hr.
  unfold payload, expiry, expiryRecord.
  unfold store.embedDB_Store, bolt.Update, bolt.CreateBucketIfNotExists, bolt.Put.
  destruct s as [[rt cm]]. cbn [store.db bolt.root bolt.commits String.eqb Ascii.eqb Bool.eqb] in *.
  rewrite Hm, Hc.
  destruct (Nat.eqb_spec (String.length key) 0) as [H0|H0].
  { destruct (rt !! "data"); cbn [bolt.root bolt.commits];
      destruct (rt !! "expTimes"); simpl; discriminate. }
  destruct (Z.ltb_spec bolt.MaxKeySize (Z.of_nat (String.length key))) as [H1|H1].
  { destruct (rt !! "data"); cbn [bolt.root bolt.commits];
      destruct (rt !! "expTimes"); simpl; discriminate. }
  destruct (Z.ltb_spec bolt.MaxValueSize (Z.of_nat (String.length data))) as [H2|H2];
    [lia|].
  destruct (Z.ltb_spec bolt.MaxValueSize
              (Z.of_nat (String.length
                 (strconv.FormatInt (wrap64 (time.ToUnix now + wrap64 ttd))))))
    as [H3|H3].
  { destruct (rt !! "data"); cbn [bolt.root bolt.commits];
      rewrite ?lookup_insert_ne by done;
      destruct (rt !! "expTimes"); simpl; discriminate. }
  destruct (rt !! "data") as [dbk|] eqn:Hd; cbn [bolt.root bolt.commits];
    rewrite ?lookup_insert_ne by done;
    destruct (rt !! "expTimes") as [ebk|] eqn:He; cbn [bolt.root bolt.commits];
    destruct (hd true (tail cm)); cbn [fst snd store.db bolt.root]; try discriminate;
    intros _; simplify_map_eq; done.
Qed.


Lemma embedDB_Store_success_witness :
  payload (fst (store.embedDB_Store fixture.noon "k" (fixture.Int 5) 60 fixture.freshFile)) "k"
  = Some "5"
  /\ expiry (fst (store.embedDB_Store fixture.noon "k" (fixture.Int 5) 60 fixture.freshFile)) "k"
     = Some (expiryRecord fixture.noon 60).
Proof.
  exact (embedDB_Store_success fixture.noon "k" (fixture.Int 5) 60 fixture.freshFile "5"
           eq_refl eq_refl eq_refl ltac:(vm_compute; discriminate)).
Defined.

(** ** The local backend: the files the program writes *)

(** Every expiry record in a file the program wrote is a decimal timestamp
    that [strconv.ParseInt] reads without error. *)
Theorem written_expiry_parses (s : store.embedDB) :
  written s ->
  forall key str, expiry s key = Some str ->
  exists e, strconv.ParseInt str = (e, None).
Proof.
  induction 1 as [commits | V HV now k value ttd s Hw IH | V HV now k s Hw IH];
    intros key str Hs.
  - discriminate Hs.
  - unfold expiry in Hs.
    destruct (embedDB_Store_regions now k value ttd s) as [_ [He|He]];
      rewrite He in Hs.
    + by apply (IH key).
    + simpl in Hs. destruct (decide (k = key)) as [->|Hne].
      * rewrite lookup_insert_eq in Hs. injection Hs as <-.
        eexists. unfold expiryRecord. apply ParseInt_FormatInt.
        pose proof (wrap64_range (time.ToUnix now + wrap64 ttd)). lia.
      * rewrite lookup_insert_ne in Hs by done. by apply (IH key).
  - rewrite embedDB_Retrieve_fst in Hs. by apply (IH key).
Qed.

Lemma written_expiry_parses_witness :
  exists e, strconv.ParseInt "1500000060" = (e, None).
Proof.
  apply (written_expiry_parses
           (fst (store.embedDB_Store fixture.noon "k" (fixture.Int 5) 60 fixture.freshFile))
           (written_Store fixture.noon "k" (fixture.Int 5) 60 fixture.freshFile
              (written_fresh []))
           "k" "1500000060").
  reflexivity.
Defined.

(** On every file the program wrote, whatever was stored, [Retrieve] of every
    key at every instant panics. *)
Theorem written_Retrieve_always_panics {V} `{Codec V}
  (now : time.Time) (key : string) (s : store.embedDB) :
  written s ->
  store.embedDB_Retrieve (V := V) now key s
  = (s, Panicked "invalid memory address or nil pointer dereference").
Proof.
  intros Hw. apply embedDB_Retrieve_no_times. by apply written_no_times.
Qed.

Lemma written_Retrieve_always_panics_witness :
  let s := fst (store.embedDB_Store fixture.noon "b" (fixture.Int 2) 60
                  (fst (store.embedDB_Store fixture.noon "a" (fixture.Int 1) 60
                          fixture.freshFile))) in
  store.embedDB_Retrieve (V := fixture.number) (time.addSeconds fixture.noon 30) "a" s
  = (s, Panicked "invalid memory address or nil pointer dereference").
Proof.
  exact (written_Retrieve_always_panics (V := fixture.number)
           (time.addSeconds fixture.noon 30) "a" _
           (written_Store fixture.noon "b" (fixture.Int 2) 60 _
              (written_Store fixture.noon "a" (fixture.Int 1) 60 _ (written_fresh [])))).
Defined.

(** ** The local backend: reads of a file that has the bucket "times" *)

(** With both buckets in the file and a well-formed expiry record for the
    key, [Retrieve] decodes the payload exactly when the clock has passed the
    recorded instant, and decodes the empty slice before. *)
Theorem embedDB_Retrieve_expiry_test {V} `{Codec V}
  (now : time.Time) (key : string) (s : store.embedDB)
  (tb d : gmap string string) (str : string) (e : Z) :
  bolt.root (store.db s) !! "times" = Some tb ->
  bolt.root (store.db s) !! "data" = Some d ->
  tb !! key = Some str ->
  strconv.ParseInt str = (e, None) ->
  snd (store.embedDB_Retrieve (V := V) now key s)
  = Returned (store.Unmarshal
                (if time.After now (time.Unix e) then default "" (d !! key) else "")).
Proof.
  intros Ht Hd Hk Hp.
  rewrite (embedDB_Retrieve_times now key s tb d str e Ht Hd Hk Hp). simpl.
  destruct (time.After now (time.Unix e)); reflexivity.
Qed.

Lemma embedDB_Retrieve_expiry_test_witness :
  let s := {| store.db :=
                {| bolt.root := {[ "data" := {[ "k" := "5" ]};
                                   "times" := {[ "k" := "1500000060" ]} ]};
                   bolt.commits := [] |} |} in
  snd (store.embedDB_Retrieve (V := fixture.number) (time.addSeconds fixture.noon 120) "k" s)
  = Returned (Ok (fixture.Int 5)).
Proof.
  exact (embedDB_Retrieve_expiry_test (V := fixture.number)
           (time.addSeconds fixture.noon 120) "k"
           {| store.db :=
                {| bolt.root := {[ "data" := {[ "k" := "5" ]};
                                   "times" := {[ "k" := "1500000060" ]} ]};
                   bolt.commits := [] |} |}
           {[ "k" := "1500000060" ]} {[ "k" := "5" ]} "1500000060" 1500000060
           eq_refl eq_refl eq_refl eq_refl).
Defined.

(** With both buckets in the file and no expiry record for the key,
    [Retrieve] returns the syntax error of [strconv.ParseInt] on the empty
    string, at every instant. *)
Theorem embedDB_Retrieve_missing_key {V} `{Codec V}
  (now : time.Time) (key : string) (s : store.embedDB) (tb d : gmap string string) :
  bolt.root (store.db s) !! "times" = Some tb ->
  bolt.root (store.db s) !! "data" = Some d ->
  tb !! key = None ->
  store.embedDB_Retrieve (V := V) now key s = (s, Returned (Err ErrSyntax)).
Proof.
  intros Ht Hd Hk.
  unfold store.embedDB_Retrieve, bolt.View, bolt.GetBucket, bolt.Get.
  rewrite Ht, Hd. simpl. rewrite Ht, Hd. simpl. rewrite Hk. simpl.
  destruct (time.After now (time.Unix 0)); reflexivity.
Qed.

Lemma embedDB_Retrieve_missing_key_witness :
  let s := {| store.db :=
                {| bolt.root := {[ "data" := {[ "k" := "5" ]};
                                   "times" := {[ "k" := "1500000060" ]} ]};
                   bolt.commits := [] |} |} in
  store.embedDB_Retrieve (V := fixture.number) fixture.noon "nobody" s
  = (s, Returned (Err ErrSyntax)).
Proof.
  exact (embedDB_Retrieve_missing_key (V := fixture.number) fixture.noon "nobody"
           {| store.db :=
                {| bolt.root := {[ "data" := {[ "k" := "5" ]};
                                   "times" := {[ "k" := "1500000060" ]} ]};
                   bolt.commits := [] |} |}
           {[ "k" := "1500000060" ]} {[ "k" := "5" ]} eq_refl eq_refl eq_refl).
Defined.

(** [Retrieve] of the local backend panics in exactly two situations: the
    file has no bucket "times", or it has no bucket "data" and the clock has
    passed the instant read for the key. *)
Theorem embedDB_Retrieve_panics_iff {V} `{Codec V}
  (now : time.Time) (key : string) (s : store.embedDB) :
  (exists msg, snd (store.embedDB_Retrieve (V := V) now key s) = Panicked msg)
  <-> bolt.root (store.db s) !! "times" = None
      \/ (bolt.root (store.db s) !! "data" = None
          /\ time.After now
               (time.Unix (fst (strconv.ParseInt
                  (default "" (default ∅ (bolt.root (store.db s) !! "times") !! key)))))
             = true).
Proof.
  unfold store.embedDB_Retrieve, bolt.View, bolt.GetBucket, bolt.Get.
  destruct (bolt.root (store.db s) !! "times") as [tb|] eqn:Ht; simpl.
  - rewrite Ht. simpl.
    destruct (strconv.ParseInt (default "" (tb !! key))) as [e err]. simpl.
    destruct (time.After now (time.Unix e));
      destruct (bolt.root (store.db s) !! "data") as [d|] eqn:Hd; simpl;
      rewrite ?Hd; simpl; destruct err; simpl; split;
      try (intros [msg Hm]; discriminate Hm);
      try (intros [Hn|[Hn Ha]]; discriminate);
      eauto.
  - split; eauto.
Qed.

(** ** The networked backend *)

(** [Store] returns nil exactly when the value serializes: its result never
    depends on the service. *)
Theorem storer_Store_nil_iff {V} `{Codec V}
  (now : time.Time) (key : string) (value : V) (ttl : Z) (s : store.storer) :
  snd (store.storer_Store now key value ttl s) = None <-> is_Some (marshal value).
Proof.
  unfold store.storer_Store.
  destruct (marshal value) as [data|].
  - destruct (redis.Do now (redis.SETEX key ttl data) (store.pool s)) as [p rp].
    simpl. split; eauto.
  - simpl. split; [discriminate|]. intros [x Hx]. discriminate Hx.
Qed.

(** [Store] and then [Retrieve] within the life of the entry, the service
    reachable: [Retrieve] returns the value stored and leaves the service as
    [Store] left it. *)
Theorem storer_round_trip {V} `{Codec V}
  (now later : time.Time) (key : string) (value : V) (ttl : Z) (r : store.storer)
  (data : string) :
  redis.up (store.pool r) = true ->
  marshal value = Some data ->
  unmarshal data = Some value ->
  0 < ttl ->
  time.After later (time.addSeconds now ttl) = false ->
  let stored := fst (store.storer_Store now key value ttl r) in
  store.storer_Retrieve (V := V) later key stored = (stored, Returned (Ok value)).
Proof.
  intros Hup Hm Hu Httl Ha. cbv zeta.
  assert (fst (store.storer_Store now key value ttl r)
          = {| store.pool :=
                 {| redis.up := true;
                    redis.keys := <[key := (data, time.addSeconds now ttl)]>
                                    (redis.keys (store.pool r)) |} |}) as ->.
  { unfold store.storer_Store, redis.Do. rewrite Hm, Hup. simpl.
    destruct (Z.leb_spec ttl 0) as [Hle|_]; [lia|]. reflexivity. }
  erewrite storer_Retrieve_live; [|reflexivity| |exact Ha].
  - unfold store.Unmarshal. rewrite Hu. reflexivity.
  - simpl. apply lookup_insert_eq.
Qed.

Lemma storer_round_trip_witness :
  let stored := fst (store.storer_Store fixture.noon "k" (fixture.Int 5) 300
                       (fixture.cache true)) in
  store.storer_Retrieve (V := fixture.number) (time.addSeconds fixture.noon 300) "k" stored
  = (stored, Returned (Ok (fixture.Int 5))).
Proof.
  exact (storer_round_trip fixture.noon (time.addSeconds fixture.noon 300) "k"
           (fixture.Int 5) 300 (fixture.cache true) "5"
           eq_refl eq_refl eq_refl eq_refl eq_refl).
Defined.

(** [Store] and then [Retrieve] after the life of the entry has run out:
    the service answers GET with nil, the type assertion in [Retrieve] panics,
    and the expired key is gone from the service. *)
Theorem storer_expired_panics {V} `{Codec V}
  (now later : time.Time) (key : string) (value : V) (ttl : Z) (r : store.storer)
  (data : string) :
  redis.up (store.pool r) = true ->
  marshal value = Some data ->
  0 < ttl ->
  time.After later (time.addSeconds now ttl) = true ->
  let read := store.storer_Retrieve (V := V) later key
                (fst (store.storer_Store now key value ttl r)) in
  snd read = Panicked "interface conversion: interface is nil, not []uint8"
  /\ redis.keys (store.pool (fst read)) !! key = None.
Proof.
  intros Hup Hm Httl Ha. cbv zeta.
  assert (fst (store.storer_Store now key value ttl r)
          = {| store.pool :=
                 {| redis.up := true;
                    redis.keys := <[key := (data, time.addSeconds now ttl)]>
                                    (redis.keys (store.pool r)) |} |}) as ->.
  { unfold store.storer_Store, redis.Do. rewrite Hm, Hup. simpl.
    destruct (Z.leb_spec ttl 0) as [Hle|_]; [lia|]. reflexivity. }
  unfold store.storer_Retrieve, redis.Do. simpl.
  rewrite lookup_insert_eq, Ha. simpl. split; [reflexivity|].
  apply lookup_delete_eq.
Qed.

Lemma storer_expired_panics_witness :
  let read := store.storer_Retrieve (V := fixture.number)
                (time.addSeconds fixture.noon 301) "k"
                (fst (store.storer_Store fixture.noon "k" (fixture.Int 5) 300
                        (fixture.cache true))) in
  snd read = Panicked "interface conversion: interface is nil, not []uint8"
  /\ redis.keys (store.pool (fst read)) !! "k" = None.
Proof.
  exact (storer_expired_panics fixture.noon (time.addSeconds fixture.noon 301) "k"
           (fixture.Int 5) 300 (fixture.cache true) "5"
           eq_refl eq_refl eq_refl eq_refl).
Defined.

(** [Retrieve] of the networked backend panics exactly when the service is
    reachable and has no live entry for the key: the key is absent, or its
    life has run out. *)
Theorem storer_Retrieve_panics_iff {V} `{Codec V}
  (now : time.Time) (key : string) (r : store.storer) :
  (exists msg, snd (store.storer_Retrieve (V := V) now key r) = Panicked msg)
  <-> redis.up (store.pool r) = true
      /\ (redis.keys (store.pool r) !! key = None
          \/ exists data exp,
               redis.keys (store.pool r) !! key = Some (data, exp)
               /\ time.After now exp = true).
Proof.
  unfold store.storer_Retrieve, redis.Do.
  destruct (redis.up (store.pool r)); simpl.
  - destruct (redis.keys (store.pool r) !! key) as [[data exp]|] eqn:Hk; simpl.
    + destruct (time.After now exp) eqn:Ha; simpl.
      * split; [intros _|eauto]. split; [reflexivity|]. right. eauto.
      * split; [intros [msg Hm]; discriminate Hm|].
        intros [_ [Hn|(d' & e' & Hs & Ha')]]; [discriminate|].
        injection Hs as <- <-. congruence.
    + split; eauto.
  - split; [intros [msg Hm]; discriminate Hm|]. intros [Hup _]. discriminate Hup.
Qed.





(** [Store] under one key does not change what [Retrieve] returns for any
    other key, at any instant, whether the write reached the service or
    not. *)
Theorem storer_Store_frame {V W} `{Codec V} `{Codec W}
  (now later : time.Time) (key other : string) (value : V) (ttl : Z) (r : store.storer) :
  other <> key ->
  snd (store.storer_Retrieve (V := W) later other
         (fst (store.storer_Store now key value ttl r)))
  = snd (store.storer_Retrieve (V := W) later other r).
Proof.
  intros Hne. destruct r as [[u ks0]].
  assert (exists ks,
            fst (store.storer_Store now key value ttl
                   {| store.pool := {| redis.up := u; redis.keys := ks0 |} |})
            = {| store.pool := {| redis.up := u; redis.keys := ks |} |}
            /\ ks !! other = ks0 !! other) as (ks & -> & Hks).
  { unfold store.storer_Store, redis.Do. simpl.
    destruct (marshal value); [|eauto].
    destruct u; simpl; [|eauto].
    destruct (ttl <=? 0); simpl; [eauto|].
    eexists. split; [reflexivity|]. by rewrite lookup_insert_ne. }
  unfold store.storer_Retrieve, redis.Do. simpl. rewrite Hks.
  destruct u; simpl; [|reflexivity].
  destruct (ks0 !! other) as [[d e]|]; [|reflexivity].
  destruct (time.After later e); reflexivity.
Qed.

Lemma storer_Store_frame_witness :
  let r := fst (store.storer_Store fixture.noon "a" (fixture.Int 1) 300 (fixture.cache true)) in
  snd (store.storer_Retrieve (V := fixture.number) (time.addSeconds fixture.noon 10) "a"
         (fst (store.storer_Store fixture.noon "b" (fixture.Int 2) 300 r)))
  = snd (store.storer_Retrieve (V := fixture.number) (time.addSeconds fixture.noon 10) "a" r).
Proof.
  exact (storer_Store_frame (V := fixture.number) (W := fixture.number)
           fixture.noon (time.addSeconds fixture.noon 10) "b" "a" (fixture.Int 2) 300
           (fst (store.storer_Store fixture.noon "a" (fixture.Int 1) 300 (fixture.cache true)))
           ltac:(discriminate)).
Defined.

(** ** The client-IP extractor, further *)

Lemma getIP_IPv4_hostport_witness :
  authentication.getIP fixture.parseIPv6
    {| http.RemoteAddr := "10.0.0.5" +:+ String ":" "4242"; http.Cookies := [] |}
  = net.ParseIP fixture.parseIPv6 "10.0.0.5".
Proof.
  exact (getIP_IPv4_hostport fixture.parseIPv6 "10.0.0.5" "4242" [] eq_refl).
Defined.

Lemma parseIPv4_loop_bytes (todo : nat) (first : bool) (s : string) (p q : list Z)
  (rest : string) :
  Forall (fun x => 0 <= x < 256) p ->
  net.parseIPv4_loop todo first s p = Some (q, rest) ->
  Forall (fun x => 0 <= x < 256) q.
Proof.
  revert first s p. induction todo as [|todo IH]; intros first s p Hp; simpl.
  - intros [= <- <-]. exact Hp.
  - destruct s as [|a s']; [discriminate|].
    destruct (negb first && negb (Ascii.eqb a ".")); [discriminate|].
    destruct (net.dtoi (if first then String a s' else s')) as [[n r] ok].
    destruct (negb ok || (255 <? n)); [discriminate|].
    apply IH. apply Forall_app. split; [exact Hp|].
    constructor; [|constructor].
    apply Z.mod_pos_bound. lia.
Qed.

Lemma parseIPv4_shape (s : string) :
  net.parseIPv4 s = []
  \/ exists a b c d,
       net.parseIPv4 s = net.IPv4 a b c d
       /\ Forall (fun x => 0 <= x < 256) [a; b; c; d].
Proof.
  unfold net.parseIPv4.
  destruct (net.parseIPv4_loop 4 true s []) as [[q rest]|] eqn:Hl; [|by left].
  pose proof (parseIPv4_loop_bytes 4 true s [] q rest (Forall_nil_2 _) Hl) as Hq.
  destruct q as [|a [|b [|c [|d [|x q]]]]]; try (by left).
  destruct rest; [|by left].
  right. exists a, b, c, d. split; [reflexivity|exact Hq].
Qed.

(** Whatever the source address, the extractor returns nil or the 16-byte
    form of an IPv4 address: it never returns an IPv6 address. *)
Theorem getIP_nil_or_IPv4 (parseIPv6 : string -> net.IP) (request : http.Request) :
  authentication.getIP parseIPv6 request = []
  \/ exists a b c d,
       authentication.getIP parseIPv6 request = net.IPv4 a b c d
       /\ Forall (fun x => 0 <= x < 256) [a; b; c; d].
Proof.
  unfold authentication.getIP, net.ParseIP.
  destruct (gostrings.Contains (http.RemoteAddr request) ":") eqn:Hc.
  - pose proof (firstSeparator_Split_hd (http.RemoteAddr request)) as Hn.
    destruct (net.firstSeparator _) as [a|] eqn:Hs; [|by left].
    destruct (firstSeparator_cases _ _ Hs) as [->| ->]; [|done].
    apply parseIPv4_shape.
  - pose proof (Contains_colon_firstSeparator _ Hc) as Hn.
    destruct (net.firstSeparator _) as [a|] eqn:Hs; [|by left].
    destruct (firstSeparator_cases _ _ Hs) as [->| ->]; [|done].
    apply parseIPv4_shape.
Qed.

(** ** Sessions, further *)

Lemma Request_Cookie_in_absent (cs : list http.Cookie) (name : string) :
  Forall (fun c => http.Name c <> name) cs ->
  http.Request_Cookie_in cs name = Err ErrNoCookie.
Proof.
  induction 1 as [|c cs Hc _ IH]; simpl; [reflexivity|].
  destruct (String.eqb_spec (http.Name c) name); [done|exact IH].
Qed.

(** A request without the session cookie resolves to none, whatever other
    cookies it carries: the store is not consulted and nothing is logged.
    This holds for every implementation of [Storer]. *)
Theorem resolveSession_without_cookie (parseIPv6 : string -> net.IP)
  {Attrs} `{Codec (authentication.AuthenticatedUser Attrs)} {S} `{store.Storer S}
  (now : time.Time) (request : http.Request) (st : S) (lg : list logLine) :
  Forall (fun c => http.Name c <> "lidp-user") (http.Cookies request) ->
  authentication.retrieveUserFromSession parseIPv6 now request st lg
  = (st, lg, Returned None).
Proof.
  intros Hc. unfold authentication.retrieveUserFromSession, http.Request_Cookie.
  by rewrite Request_Cookie_in_absent.
Qed.

Lemma resolveSession_without_cookie_witness :
  authentication.retrieveUserFromSession (Attrs := unit) fixture.parseIPv6 fixture.noon
    {| http.RemoteAddr := "10.0.0.5:4242";
       http.Cookies := [fixture.state_cookie "id-7"] |}
    fixture.freshFile []
  = (fixture.freshFile, [], Returned None).
Proof.
  apply (resolveSession_without_cookie (Attrs := unit) fixture.parseIPv6 fixture.noon
           {| http.RemoteAddr := "10.0.0.5:4242";
              http.Cookies := [fixture.state_cookie "id-7"] |}
           fixture.freshFile []).
  repeat constructor. discriminate.
Defined.

(** [resolveSession] returns a user only when the store yielded that very
    record under the value of the session cookie and the IP derived from the
    request equals the IP recorded in it.  This holds for every
    implementation of [Storer]. *)
Theorem resolveSession_sound (parseIPv6 : string -> net.IP)
  {Attrs} `{Codec (authentication.AuthenticatedUser Attrs)} {S} `{store.Storer S}
  (now : time.Time) (request : http.Request) (st : S) (lg : list logLine)
  (user : authentication.AuthenticatedUser Attrs) :
  snd (authentication.retrieveUserFromSession parseIPv6 now request st lg)
  = Returned (Some user) ->
  exists c,
    http.Request_Cookie request "lidp-user" = Ok c
    /\ snd (store.Retrieve now (http.Value c) st) = Returned (Ok user)
    /\ net.Equal (authentication.getIP parseIPv6 request) (authentication.IP user) = true.
Proof.
  unfold authentication.retrieveUserFromSession.
  destruct (http.Request_Cookie request "lidp-user") as [c|e]; [|discriminate].
  destruct (store.Retrieve now (http.Value c) st) as [st' [[u|e]|msg]] eqn:Hr;
    simpl; try discriminate.
  destruct (net.Equal (authentication.getIP parseIPv6 request) (authentication.IP u))
    eqn:Hip; simpl; [|discriminate].
  intros [= <-]. exists c. rewrite Hr. auto.
Qed.

Lemma resolveSession_sound_witness :
  let st := snd (fst (authentication.storeUserInSession
                        fixture.noon "id-1" [] (fixture.cache true) fixture.alice [])) in
  let request := {| http.RemoteAddr := "10.0.0.5:4242";
                    http.Cookies := [fixture.session_cookie "id-1"] |} in
  exists c,
    http.Request_Cookie request "lidp-user" = Ok c
    /\ snd (store.Retrieve (time.addSeconds fixture.noon 60) (http.Value c) st)
       = Returned (Ok fixture.alice)
    /\ net.Equal (authentication.getIP fixture.parseIPv6 request)
         (authentication.IP fixture.alice) = true.
Proof.
  exact (resolveSession_sound fixture.parseIPv6 (time.addSeconds fixture.noon 60)
           {| http.RemoteAddr := "10.0.0.5:4242";
              http.Cookies := [fixture.session_cookie "id-1"] |}
           (snd (fst (authentication.storeUserInSession
                        fixture.noon "id-1" [] (fixture.cache true) fixture.alice [])))
           [] fixture.alice eq_refl).
Defined.

(** [createSession] relative to what [Store] returns: the session cookie is
    added to the response in both cases, and the line "Failed to save session
    for user." is logged exactly when [Store] returned an error. *)
Lemma storeUserInSession_effects
  {Attrs} `{Codec (authentication.AuthenticatedUser Attrs)} {S} `{store.Storer S}
  (now : time.Time) (sessionID : string) (writer : http.ResponseWriter) (st : S)
  (user : authentication.AuthenticatedUser Attrs) (lg : list logLine) :
  let w := store.Store now sessionID user 28800 st in
  authentication.storeUserInSession now sessionID writer st user lg
  = (writer ++ [{| http.Name := "lidp-user"; http.Value := sessionID;
                   http.Path := "/"; http.HttpOnly := true; http.Secure := true |}],
     fst w,
     (lg ++ [LogText ("Creating a new session for " +:+ authentication.Name user)])
       ++ match snd w with
          | Some _ => [LogText "Failed to save session for user."]
          | None => []
          end).
Proof.
  unfold authentication.storeUserInSession. cbv zeta.
  destruct (store.Store now sessionID user 28800 st) as [st' [e|]]; simpl.
  - reflexivity.
  - by rewrite app_nil_r.
Qed.

(** Both outcomes of the store write occur; an orphaned cookie is what a
    failed one leaves. *)
Lemma storeUserInSession_orphaned_cookie :
  authentication.storeUserInSession fixture.noon "id-1" []
    (fixture.fileOnDisk [true; false]) fixture.alice []
  = ([fixture.session_cookie "id-1"],
     fst (store.embedDB_Store fixture.noon "id-1" fixture.alice 28800
            (fixture.fileOnDisk [true; false])),
     [LogText "Creating a new session for alice";
      LogText "Failed to save session for user."]).
Proof. vm_compute. reflexivity. Qed.

Lemma session_after_create_networked_witness :
  let request := {| http.RemoteAddr := "10.0.0.5:4242";
                    http.Cookies := [fixture.session_cookie "id-1"] |} in
  let '(_, st, lg1) :=
    authentication.storeUserInSession fixture.noon "id-1" [] (fixture.cache true)
      fixture.alice [] in
  snd (authentication.retrieveUserFromSession fixture.parseIPv6
         (time.addSeconds fixture.noon 28800) request st lg1)
  = Returned (Some fixture.alice).
Proof.
  exact (session_after_create_networked fixture.parseIPv6 fixture.noon
           (time.addSeconds fixture.noon 28800) "id-1" [] (fixture.cache true)
           fixture.alice []
           {| http.RemoteAddr := "10.0.0.5:4242";
              http.Cookies := [fixture.session_cookie "id-1"] |}
           (fixture.session_cookie "id-1")
           (String "016" (fixture.bytesToString (authentication.IP fixture.alice) +:+ "alice"))
           eq_refl eq_refl eq_refl eq_refl eq_refl eq_refl eq_refl).
Defined.

(** A session looked up after its eight hours, on the networked backend with
    the service reachable: [resolveSession] panics in [Retrieve]. *)
Theorem session_after_expiry_networked (parseIPv6 : string -> net.IP)
  {Attrs} `{Codec (authentication.AuthenticatedUser Attrs)}
  (now later : time.Time) (sessionID : string) (writer : http.ResponseWriter)
  (r : store.storer) (user : authentication.AuthenticatedUser Attrs)
  (lg : list logLine) (request : http.Request) (c : http.Cookie) (data : string) :
  redis.up (store.pool r) = true ->
  marshal user = Some data ->
  time.After later (time.addSeconds now 28800) = true ->
  http.Request_Cookie request "lidp-user" = Ok c ->
  http.Value c = sessionID ->
  let '(_, st, lg1) := authentication.storeUserInSession now sessionID writer r user lg in
  snd (authentication.retrieveUserFromSession parseIPv6 later request st lg1)
  = Panicked "interface conversion: interface is nil, not []uint8".
Proof.
  intros Hup Hm Ha Hc Hv.
  unfold authentication.storeUserInSession. simpl.
  assert (fst (store.storer_Store now sessionID user 28800 r)
          = {| store.pool :=
                 {| redis.up := true;
                    redis.keys := <[sessionID := (data, time.addSeconds now 28800)]>
                                    (redis.keys (store.pool r)) |} |}) as Hst.
  { unfold store.storer_Store, redis.Do. rewrite Hm, Hup. reflexivity. }
  destruct (store.storer_Store now sessionID user 28800 r) as [st e].
  simpl in Hst. subst st.
  assert (forall lg1,
            snd (authentication.retrieveUserFromSession parseIPv6 later request
                   {| store.pool :=
                        {| redis.up := true;
                           redis.keys := <[sessionID := (data, time.addSeconds now 28800)]>
                                           (redis.keys (store.pool r)) |} |} lg1)
            = Panicked "interface conversion: interface is nil, not []uint8") as G.
  { intros lg1. unfold authentication.retrieveUserFromSession.
    rewrite Hc, Hv. simpl. unfold store.storer_Retrieve, redis.Do. simpl.
    rewrite lookup_insert_eq, Ha. reflexivity. }
  destruct e; apply G.
Qed.

Lemma session_after_expiry_networked_witness :
  let request := {| http.RemoteAddr := "10.0.0.5:4242";
                    http.Cookies := [fixture.session_cookie "id-1"] |} in
  let '(_, st, lg1) :=
    authentication.storeUserInSession fixture.noon "id-1" [] (fixture.cache true)
      fixture.alice [] in
  snd (authentication.retrieveUserFromSession fixture.parseIPv6
         (time.addSeconds fixture.noon 28801) request st lg1)
  = Panicked "interface conversion: interface is nil, not []uint8".
Proof.
  exact (session_after_expiry_networked fixture.parseIPv6 fixture.noon
           (time.addSeconds fixture.noon 28801) "id-1" [] (fixture.cache true)
           fixture.alice []
           {| http.RemoteAddr := "10.0.0.5:4242";
              http.Cookies := [fixture.session_cookie "id-1"] |}
           (fixture.session_cookie "id-1")
           (String "016" (fixture.bytesToString (authentication.IP fixture.alice) +:+ "alice"))
           eq_refl eq_refl eq_refl eq_refl eq_refl).
Defined.

(** ** Request state, further *)

(** A request without the request-state cookie loads no state: the store is
    not consulted and nothing is logged.  This holds for every implementation
    of [Storer]. *)
Theorem loadState_without_cookie
  {Req} `{Codec (authentication.RequestState Req)} {S} `{store.Storer S}
  (now : time.Time) (request : http.Request) (st : S) (lg : list logLine) :
  Forall (fun c => http.Name c <> "lidp-rs") (http.Cookies request) ->
  authentication.retrieveRequestState (Req := Req) now request st lg
  = (st, lg, Returned (None, "")).
Proof.
  intros Hc. unfold authentication.retrieveRequestState, http.Request_Cookie.
  by rewrite Request_Cookie_in_absent.
Qed.

Lemma loadState_without_cookie_witness :
  authentication.retrieveRequestState (Req := string) fixture.noon
    {| http.RemoteAddr := "10.0.0.5:4242";
       http.Cookies := [fixture.session_cookie "id-1"] |}
    (fixture.cache true) []
  = (fixture.cache true, [], Returned (None, "")).
Proof.
  apply (loadState_without_cookie (Req := string) fixture.noon
           {| http.RemoteAddr := "10.0.0.5:4242";
              http.Cookies := [fixture.session_cookie "id-1"] |}
           (fixture.cache true) []).
  repeat constructor. discriminate.
Defined.

(** [loadState] returns a pending request only when the store yielded, under
    the value of the request-state cookie, a state holding that request and
    that relay string.  This holds for every implementation of [Storer]. *)
Theorem loadState_sound
  {Req} `{Codec (authentication.RequestState Req)} {S} `{store.Storer S}
  (now : time.Time) (request : http.Request) (st : S) (lg : list logLine)
  (req : Req) (relay : string) :
  snd (authentication.retrieveRequestState now request st lg)
  = Returned (Some req, relay) ->
  exists c rs,
    http.Request_Cookie request "lidp-rs" = Ok c
    /\ snd (store.Retrieve now (http.Value c) st) = Returned (Ok rs)
    /\ authentication.AuthnRequest rs = Some req
    /\ authentication.RelayState rs = relay.
Proof.
  unfold authentication.retrieveRequestState.
  destruct (http.Request_Cookie request "lidp-rs") as [c|e]; [|discriminate].
  destruct (store.Retrieve now (http.Value c) st) as [st' [[rs|e]|msg]] eqn:Hr;
    simpl; try discriminate.
  intros [= Hq Hl]. exists c, rs. rewrite Hr. auto.
Qed.

Lemma loadState_sound_witness :
  let st := snd (fst (authentication.storeRequestState fixture.noon "id-7" []
                        (fixture.cache true) (Some "req-7") "/home")) in
  let request := {| http.RemoteAddr := "10.0.0.5:4242";
                    http.Cookies := [fixture.state_cookie "id-7"] |} in
  exists c rs,
    http.Request_Cookie request "lidp-rs" = Ok c
    /\ snd (store.Retrieve (time.addSeconds fixture.noon 60) (http.Value c) st)
       = Returned (Ok rs)
    /\ authentication.AuthnRequest rs = Some "req-7"
    /\ authentication.RelayState rs = "/home".
Proof.
  exact (loadState_sound (time.addSeconds fixture.noon 60)
           {| http.RemoteAddr := "10.0.0.5:4242";
              http.Cookies := [fixture.state_cookie "id-7"] |}
           (snd (fst (authentication.storeRequestState fixture.noon "id-7" []
                        (fixture.cache true) (Some "req-7") "/home")))
           [] "req-7" "/home" eq_refl).
Defined.

Lemma loadState_after_save_networked_witness :
  let request := {| http.RemoteAddr := "10.0.0.5:4242";
                    http.Cookies := [fixture.state_cookie "id-7"] |} in
  let '(_, st, err) :=
    authentication.storeRequestState fixture.noon "id-7" [] (fixture.cache true)
      (Some "req-7") "/home" in
  err = None
  /\ snd (authentication.retrieveRequestState (time.addSeconds fixture.noon 300)
            request st [])
     = Returned (Some "req-7", "/home").
Proof.
  exact (loadState_after_save_networked fixture.noon (time.addSeconds fixture.noon 300)
           "id-7" [] (fixture.cache true) (Some "req-7") "/home" []
           {| http.RemoteAddr := "10.0.0.5:4242";
              http.Cookies := [fixture.state_cookie "id-7"] |}
           (fixture.state_cookie "id-7")
           (String "S" (String "005" "req-7/home"))
           eq_refl eq_refl eq_refl eq_refl eq_refl eq_refl).
Defined.

(** A state loaded after its five minutes, on the networked backend with the
    service reachable: [loadState] panics in [Retrieve]. *)
Theorem loadState_after_expiry_networked
  {Req} `{Codec (authentication.RequestState Req)}
  (now later : time.Time) (sessionID : string) (writer : http.ResponseWriter)
  (r : store.storer) (authnRequest : option Req) (relayState : string)
  (lg : list logLine) (request : http.Request) (c : http.Cookie) (data : string) :
  redis.up (store.pool r) = true ->
  marshal {| authentication.AuthnRequest := authnRequest;
             authentication.RelayState := relayState |} = Some data ->
  time.After later (time.addSeconds now 300) = true ->
  http.Request_Cookie request "lidp-rs" = Ok c ->
  http.Value c = sessionID ->
  let '(_, st, _) :=
    authentication.storeRequestState now sessionID writer r authnRequest relayState in
  snd (authentication.retrieveRequestState later request st lg)
  = Panicked "interface conversion: interface is nil, not []uint8".
Proof.
  intros Hup Hm Ha Hc Hv.
  unfold authentication.storeRequestState. simpl.
  match goal with
  | |- context [store.storer_Store now sessionID ?v 300 r] =>
      assert (store.storer_Store now sessionID v 300 r
              = ({| store.pool :=
                      {| redis.up := true;
                         redis.keys := <[sessionID := (data, time.addSeconds now 300)]>
                                         (redis.keys (store.pool r)) |} |}, None)) as ->
        by (unfold store.storer_Store, redis.Do; rewrite Hm, Hup; reflexivity)
  end.
  unfold authentication.retrieveRequestState.
  rewrite Hc, Hv. simpl. unfold store.storer_Retrieve, redis.Do. simpl.
  rewrite lookup_insert_eq, Ha. reflexivity.
Qed.

Lemma loadState_after_expiry_networked_witness :
  let request := {| http.RemoteAddr := "10.0.0.5:4242";
                    http.Cookies := [fixture.state_cookie "id-7"] |} in
  let '(_, st, _) :=
    authentication.storeRequestState fixture.noon "id-7" [] (fixture.cache true)
      (Some "req-7") "/home" in
  snd (authentication.retrieveRequestState (time.addSeconds fixture.noon 360) request st [])
  = Panicked "interface conversion: interface is nil, not []uint8".
Proof.
  exact (loadState_after_expiry_networked fixture.noon (time.addSeconds fixture.noon 360)
           "id-7" [] (fixture.cache true) (Some "req-7") "/home" []
           {| http.RemoteAddr := "10.0.0.5:4242";
              http.Cookies := [fixture.state_cookie "id-7"] |}
           (fixture.state_cookie "id-7")
           (String "S" (String "005" "req-7/home"))
           eq_refl eq_refl eq_refl eq_refl eq_refl).
Defined.

(** ** The local backend: the error of a write *)

(** On a disk where every commit succeeds, what [Store] returns is the error
    of writing the expiry record, and nothing else. *)
Lemma embedDB_Store_result_healthy {V} `{Codec V}
  (now : time.Time) (key : string) (value : V) (ttd : Z) (s : store.embedDB) :
  bolt.commits (store.db s) = [] ->
  snd (store.embedDB_Store now key value ttd s)
  = match snd (bolt.Put "expTimes" key (expiryRecord now ttd) ∅) with
    | Some e => Some (Errorf "updating database: " e)
    | None => None
    end.
Proof.
  intros Hc. unfold expiryRecord.
  unfold store.embedDB_Store, bolt.Update, bolt.CreateBucketIfNotExists, bolt.Put.
  destruct s as [[rt cm]].
  cbn [store.db bolt.root bolt.commits String.eqb Ascii.eqb Bool.eqb] in *. subst cm.
  destruct (String.length key =? 0)%nat;
    [destruct (rt !! "data"), (marshal value); cbn [bolt.root bolt.commits];
     destruct (rt !! "expTimes"); reflexivity|].
  destruct (bolt.MaxKeySize <? Z.of_nat (String.length key));
    [destruct (rt !! "data"), (marshal value); cbn [bolt.root bolt.commits];
     destruct (rt !! "expTimes"); reflexivity|].
  destruct (bolt.MaxValueSize <? Z.of_nat (String.length
              (strconv.FormatInt (wrap64 (time.ToUnix now + wrap64 ttd)))));
    destruct (rt !! "data"), (marshal value) as [data|];
    try destruct (bolt.MaxValueSize <? Z.of_nat (String.length data));
    cbn [bolt.root bolt.commits hd tl];
    rewrite ?lookup_insert_ne by done;
    destruct (rt !! "expTimes"); reflexivity.
Qed.

(** On a disk where every commit succeeds, what [Store] returns does not
    depend on the value: a value that does not serialize, or serializes to
    more than bolt accepts, gives the same result as any other. *)
Theorem embedDB_Store_ignores_value {V W} `{Codec V} `{Codec W}
  (now : time.Time) (key : string) (v : V) (w : W) (ttd : Z) (s : store.embedDB) :
  bolt.commits (store.db s) = [] ->
  snd (store.embedDB_Store now key v ttd s) = snd (store.embedDB_Store now key w ttd s).
Proof.
  intros Hc. by rewrite !embedDB_Store_result_healthy.
Qed.

Lemma embedDB_Store_ignores_value_witness :
  snd (store.embedDB_Store fixture.noon "k" fixture.NaN 60 fixture.freshFile)
  = snd (store.embedDB_Store fixture.noon "k" fixture.alice 60 fixture.freshFile).
Proof.
  exact (embedDB_Store_ignores_value fixture.noon "k" fixture.NaN fixture.alice 60
           fixture.freshFile eq_refl).
Defined.

(** ** Sessions while the service is out of reach *)

(** On the networked backend with the service out of reach, [createSession]
    sets the session cookie, stores nothing and logs no failure (the creation
    line only); the [resolveSession] that follows with that cookie returns
    none, without a warning, for every user that serializes. *)
Theorem session_unreachable (parseIPv6 : string -> net.IP)
  {Attrs} `{Codec (authentication.AuthenticatedUser Attrs)}
  (now later : time.Time) (sessionID : string) (writer : http.ResponseWriter)
  (ks : gmap string (string * time.Time)) (user : authentication.AuthenticatedUser Attrs)
  (lg lg' : list logLine) (request : http.Request) (c : http.Cookie) (data : string) :
  marshal user = Some data ->
  http.Request_Cookie request "lidp-user" = Ok c ->
  let s := {| store.pool := {| redis.up := false; redis.keys := ks |} |} in
  authentication.storeUserInSession now sessionID writer s user lg
  = (writer ++ [{| http.Name := "lidp-user"; http.Value := sessionID;
                   http.Path := "/"; http.HttpOnly := true; http.Secure := true |}],
     s,
     lg ++ [LogText ("Creating a new session for " +:+ authentication.Name user)])
  /\ authentication.retrieveUserFromSession parseIPv6 later request s lg'
     = (s, lg', Returned None).
Proof.
  intros Hm Hc. cbv zeta. split.
  - unfold authentication.storeUserInSession. simpl.
    unfold store.storer_Store. rewrite Hm. reflexivity.
  - unfold authentication.retrieveUserFromSession. rewrite Hc. reflexivity.
Qed.

Lemma session_unreachable_witness :
  authentication.storeUserInSession fixture.noon "id-1" [] (fixture.cache false)
    fixture.alice []
  = ([fixture.session_cookie "id-1"], fixture.cache false,
     [LogText "Creating a new session for alice"])
  /\ authentication.retrieveUserFromSession fixture.parseIPv6
       (time.addSeconds fixture.noon 5)
       {| http.RemoteAddr := "10.0.0.5:4242";
          http.Cookies := [fixture.session_cookie "id-1"] |}
       (fixture.cache false) [LogText "Creating a new session for alice"]
     = (fixture.cache false, [LogText "Creating a new session for alice"], Returned None).
Proof.
  exact (session_unreachable fixture.parseIPv6 fixture.noon (time.addSeconds fixture.noon 5)
           "id-1" [] ∅ fixture.alice [] [LogText "Creating a new session for alice"]
           {| http.RemoteAddr := "10.0.0.5:4242";
              http.Cookies := [fixture.session_cookie "id-1"] |}
           (fixture.session_cookie "id-1")
           (String "016" (fixture.bytesToString (authentication.IP fixture.alice) +:+ "alice"))
           eq_refl eq_refl).
Defined.
